(** * target-csv: a Singer target writing RECORD messages to CSV files

    A shallow embedding of [target_csv.py] (functions [emit_state],
    [flatten], [persist_lines] and [main]) together with the properties of
    its specification and further properties read off the code.

    Conventions of the model.
    - Interpreter: CPython 3.6.5 .. 3.9 (dictionaries keep insertion order,
      [collections.MutableMapping] still exists).
    - A Python [str] is a [string]; each [ascii] stands for one code point
      below 256.
    - Values produced by [json.loads] are the type [json]; [JNull] is [None].
      A float is carried by its [repr] text.
    - A Python [dict] with string keys whose order matters (a JSON object,
      the flattened record) is an association list in insertion order; the
      dictionaries of the dispatcher, never iterated, are [gmap]s.
    - The file system is a finite map from path to text: regular files only,
      no path aliases.  Whether a file that does not exist yet can be created
      (its directory exists and is writable) is given by a function of the
      path.  Once a file is open, reading it and writing to it succeed: an
      input/output or encoding error in the middle of a write is outside
      the model.
    - Stream names are of type [str]; [delimiter] and [quotechar] are single
      characters.
    - The libraries are taken through what the program uses of them: the
      schema validator as the constructor, which builds a validator from a
      schema or raises, and a function of schema and instance that accepts
      or rejects; [csv] as a reader of the first row of a text and a writer
      of one row.  A model of CPython's [csv] is given and used to run the
      examples.
    - [main] starts where the arguments are parsed, the configuration file
      is loaded and the standard input is split into lines; [json.dumps] is
      modelled with its default arguments. *)

From Stdlib Require Import ZArith String Ascii List Bool Lia.
From stdpp Require Import base tactics option list strings gmap pretty.

(** ** Python values *)

Module Py.

#[local] Unset Elimination Schemes.

Inductive json : Type :=
| JNull
| JBool (b : bool)
| JInt (n : Z)
| JFloat (repr : string)
| JStr (s : string)
| JArr (items : list json)
| JObj (members : list (string * json)).

#[local] Set Elimination Schemes.

(** Structural induction that goes through the lists of an array and of
    an object. *)
Section json_induction.

Variable P : json -> Prop.
Hypothesis Hnull : P JNull.
Hypothesis Hbool : forall b, P (JBool b).
Hypothesis Hint : forall n, P (JInt n).
Hypothesis Hfloat : forall r, P (JFloat r).
Hypothesis Hstr : forall s, P (JStr s).
Hypothesis Harr : forall items, Forall P items -> P (JArr items).
Hypothesis Hobj : forall members, Forall (fun kv => P (snd kv)) members -> P (JObj members).

Fixpoint json_ind (v : json) : P v :=
  match v with
  | JNull => Hnull
  | JBool b => Hbool b
  | JInt n => Hint n
  | JFloat r => Hfloat r
  | JStr s => Hstr s
  | JArr items =>
      Harr items
        ((fix all (l : list json) : Forall P l :=
            match l with
            | [] => List.Forall_nil P
            | x :: l' => List.Forall_cons P x l' (json_ind x) (all l')
            end) items)
  | JObj members =>
      Hobj members
        ((fix all (l : list (string * json)) : Forall (fun kv => P (snd kv)) l :=
            match l with
            | [] => List.Forall_nil _
            | kv :: l' => List.Forall_cons _ kv l' (json_ind (snd kv)) (all l')
            end) members)
  end.

End json_induction.

(** A [dict] with [str] keys, in insertion order. *)
Definition dict (V : Type) : Type := list (string * V).

Definition dict_get {V} (d : dict V) (k : string) : option V :=
  snd <$> List.find (fun kv => String.eqb (fst kv) k) d.

(** [k in d] *)
Definition dict_contains {V} (d : dict V) (k : string) : bool :=
  match dict_get d k with Some _ => true | None => false end.

(** [d[k] = v]: an existing key keeps its position. *)
Fixpoint dict_set {V} (d : dict V) (k : string) (v : V) : dict V :=
  match d with
  | [] => [(k, v)]
  | (k', v') :: rest =>
      if String.eqb k' k then (k', v) :: rest
      else (k', v') :: dict_set rest k v
  end.

(** [dict(items)] *)
Definition dict_of_items {V} (items : list (string * V)) : dict V :=
  fold_left (fun d kv => dict_set d (fst kv) (snd kv)) items [].

(** [d.keys()] *)
Definition dict_keys {V} (d : dict V) : list string := map fst d.

(** [d.get(k, default)] *)
Definition dict_get_default {V} (d : dict V) (k : string) (default : V) : V :=
  match dict_get d k with Some v => v | None => default end.

(** An entry with its key renamed. *)
Definition rename {V} (g : string -> string) (kv : string * V) : string * V :=
  (g (fst kv), snd kv).

(** *** [repr] and [str] *)

Definition hex_digit (n : N) : ascii :=
  match n with
  | 0 => "0" | 1 => "1" | 2 => "2" | 3 => "3" | 4 => "4" | 5 => "5"
  | 6 => "6" | 7 => "7" | 8 => "8" | 9 => "9" | 10 => "a" | 11 => "b"
  | 12 => "c" | 13 => "d" | 14 => "e" | _ => "f"
  end%N%char.

(** [Py_UNICODE_ISPRINTABLE] on code points below 256. *)
Definition is_printable (c : ascii) : bool :=
  let n := N_of_ascii c in
  ((32 <=? n) && (n <? 127) || (161 <=? n) && negb (n =? 173))%N.

Definition backslash : ascii := "\"%char.
Definition squote : ascii := "'"%char.
Definition dquote : ascii := "034"%char.

Definition has_char (c : ascii) (s : string) : bool :=
  existsb (Ascii.eqb c) (list_ascii_of_string s).

(** One character of [unicode_repr], with the chosen quote. *)
Definition repr_char (quote c : ascii) : string :=
  if Ascii.eqb c quote || Ascii.eqb c backslash then String backslash (String c "")
  else if Ascii.eqb c "009" then "\t"
  else if Ascii.eqb c "010" then "\n"
  else if Ascii.eqb c "013" then "\r"
  else if is_printable c then String c ""
  else let n := N_of_ascii c in
       String backslash (String "x" (String (hex_digit (n / 16)) (String (hex_digit (n mod 16)) ""))).

(** [repr(s)] for a [str]: single quotes unless the text has a single quote
    and no double quote. *)
Definition repr_str (s : string) : string :=
  let quote := if has_char squote s && negb (has_char dquote s) then dquote else squote in
  String quote (String.concat "" (map (repr_char quote) (list_ascii_of_string s)))
    +:+ String quote "".

Fixpoint py_repr (v : json) : string :=
  match v with
  | JNull => "None"
  | JBool true => "True"
  | JBool false => "False"
  | JInt n => pretty n
  | JFloat r => r
  | JStr s => repr_str s
  | JArr items => "[" +:+ String.concat ", " (map py_repr items) +:+ "]"
  | JObj members =>
      "{" +:+ String.concat ", "
                (map (fun kv => repr_str (fst kv) +:+ ": " +:+ py_repr (snd kv)) members)
          +:+ "}"
  end.

(** [str(v)]: a [str] is itself, anything else goes through [repr]. *)
Definition py_str (v : json) : string :=
  match v with
  | JStr s => s
  | _ => py_repr v
  end.

(** *** Exceptions *)

(** The messages of the [raise Exception(...)] statements of
    [persist_lines]. *)
Inductive protocol_error : Type :=
| MissingRequiredKey (key : string)
| RecordBeforeSchema (stream : json)
| KeyPropertiesRequired
| UnknownMessageType (t : json).

Inductive exn : Type :=
| JSONDecodeError
| ProtocolError (e : protocol_error)
| KeyError (key : string)
| TypeError
| AttributeError
| ValidationError
| CsvError
| StopIteration
| OSError.

End Py.


(** ** Record flattener ([flatten], lines 23-31) *)

Module Flatten.
Import Py.

(** Truth value of a [str]: false exactly for the empty string. *)
Definition truthy (s : string) : bool := negb (String.eqb s "").

(** [flatten(d, parent_key, sep)].  The inner [fix] is the [for] loop
    building [items]; the result is [dict(items)].  The function is only
    ever called on mappings, the last branch is not reached from [flatten]. *)
Fixpoint flatten_json (d : json) (parent_key sep : string) : dict json :=
  match d with
  | JObj members =>
      dict_of_items
        ((fix items (kvs : list (string * json)) : list (string * json) :=
            match kvs with
            | [] => []
            | (k, v) :: rest =>
                let new_key :=
                  if truthy parent_key then (parent_key +:+ sep) +:+ k else k in
                (match v with
                 | JObj _ => flatten_json v new_key sep
                 | JArr _ => [(new_key, JStr (py_str v))]
                 | _ => [(new_key, v)]
                 end ++ items rest)%list
            end) members)
  | _ => []
  end.

(** [flatten(d)] with the default arguments [parent_key=''], [sep='__']. *)
Definition flatten (d : dict json) : dict json := flatten_json (JObj d) "" "__".

(** Parent and child key joined by the two-character separator. *)
Definition join_key (parent child : string) : string := parent +:+ "__" +:+ child.

(** The flattener as the specification words it: an object value is
    flattened on its own and every key of the result is joined to the
    parent key with ["__"]; a list is replaced by its string
    representation; any other value is kept; the entries are spliced, in
    order, into one mapping. *)
Fixpoint flatten_ref (d : json) : dict json :=
  match d with
  | JObj members =>
      dict_of_items
        ((fix entries (kvs : list (string * json)) : list (string * json) :=
            match kvs with
            | [] => []
            | (k, v) :: rest =>
                (match v with
                 | JObj _ => map (fun kv => (join_key k (fst kv), snd kv)) (flatten_ref v)
                 | JArr _ => [(k, JStr (py_str v))]
                 | _ => [(k, v)]
                 end ++ entries rest)%list
            end) members)
  | _ => []
  end.

(** What one pass of the loop of [flatten] contributes for the pair
    [(k, v)], and the same for the reference. *)
Definition flatten_items (parent_key sep : string) (kv : string * json)
  : list (string * json) :=
  let new_key :=
    if truthy parent_key then (parent_key +:+ sep) +:+ fst kv else fst kv in
  match snd kv with
  | JObj _ => flatten_json (snd kv) new_key sep
  | JArr _ => [(new_key, JStr (py_str (snd kv)))]
  | _ => [(new_key, snd kv)]
  end.

Definition ref_entries (kv : string * json) : list (string * json) :=
  match snd kv with
  | JObj _ => map (fun kv' => (join_key (fst kv) (fst kv'), snd kv')) (flatten_ref (snd kv))
  | JArr _ => [(fst kv, JStr (py_str (snd kv)))]
  | _ => [(fst kv, snd kv)]
  end.

Definition is_object (v : json) : bool :=
  match v with JObj _ => true | _ => false end.

Definition is_list (v : json) : bool :=
  match v with JArr _ => true | _ => false end.

(** An already-flat object: no value is itself an object. *)
Definition flat_object (d : dict json) : Prop :=
  Forall (fun kv => is_object (snd kv) = false) d.

(** Neither an object nor a list: what [flatten] stores as it is. *)
Definition scalar_valued (d : dict json) : Prop :=
  Forall (fun kv => is_object (snd kv) = false /\ is_list (snd kv) = false) d.

(** No object is stored under the empty key. *)
Definition no_object_under_empty_key (d : dict json) : Prop :=
  Forall (fun kv => fst kv = "" -> is_object (snd kv) = false) d.

End Flatten.

(** ** The [csv] module *)

Module Csv.
Import Py.

Definition CR : ascii := "013"%char.
Definition LF : ascii := "010"%char.
Definition NUL : ascii := "000"%char.
Definition CRLF : string := String CR (String LF "").

(** What the program uses of the library: [next(csv.reader(f, delimiter=,
    quotechar=))] on a file just opened for reading, given the text of the
    file, and the text [csv.writer(f, delimiter=, quotechar=).writerow(row)]
    writes. *)
Record csv_module : Type := {
  reader_next : ascii -> ascii -> string -> exn + list string;
  writerow : ascii -> ascii -> list json -> string
}.

(** *** [csv.DictWriter] (csv.py), with [restval=''] and
    [extrasaction='ignore'] *)

(** [_dict_to_list]: [(rowdict.get(key, self.restval) for key in self.fieldnames)] *)
Definition dict_to_list (fieldnames : list string) (rowdict : dict json) : list json :=
  map (fun key => dict_get_default rowdict key (JStr "")) fieldnames.

(** [writeheader]: [self.writerow(dict(zip(self.fieldnames, self.fieldnames)))] *)
Definition header_row (fieldnames : list string) : list json :=
  dict_to_list fieldnames (dict_of_items (map (fun key => (key, JStr key)) fieldnames)).

(** *** A model of CPython's [_csv] for the [excel] dialect

    [doublequote] on, no [escapechar], [skipinitialspace] off,
    [lineterminator] CR LF, [QUOTE_MINIMAL], not [strict]; delimiter and
    quote character other than NUL. *)

(** Text-mode reading with [newline=None]: CR LF and CR become LF. *)
Fixpoint universal_newlines (s : string) : string :=
  match s with
  | EmptyString => EmptyString
  | String c rest =>
      if Ascii.eqb c CR then
        String LF
          match rest with
          | String c' rest' =>
              if Ascii.eqb c' LF then universal_newlines rest' else universal_newlines rest
          | EmptyString => EmptyString
          end
      else String c (universal_newlines rest)
  end.

(** Iterating over a text file: the lines, each with its final LF. *)
Fixpoint file_lines (cur s : string) : list string :=
  match s with
  | EmptyString => if String.eqb cur "" then [] else [cur]
  | String c rest =>
      if Ascii.eqb c LF then (cur +:+ String c "") :: file_lines "" rest
      else file_lines (cur +:+ String c "") rest
  end.

Inductive parser_state : Type :=
| START_RECORD | START_FIELD | IN_FIELD | IN_QUOTED_FIELD
| QUOTE_IN_QUOTED_FIELD | EAT_CRNL.

Record reader : Type := {
  state : parser_state;
  field : string;
  fields : list string
}.

Definition field_limit : N := 131072.

Definition parse_reset : reader :=
  {| state := START_RECORD; field := ""; fields := [] |}.

Definition parse_save_field (r : reader) : reader :=
  {| state := state r; field := ""; fields := fields r ++ [field r] |}.

Definition parse_add_char (r : reader) (c : ascii) : exn + reader :=
  if (field_limit <=? N.of_nat (String.length (field r)))%N then inl CsvError
  else inr {| state := state r; field := field r +:+ String c ""; fields := fields r |}.

Definition set_state (s : parser_state) (r : reader) : reader :=
  {| state := s; field := field r; fields := fields r |}.

Definition then_state (s : parser_state) (x : exn + reader) : exn + reader :=
  match x with
  | inl e => inl e
  | inr r => inr (set_state s r)
  end.

Definition is_newline (c : option ascii) : bool :=
  match c with
  | Some c => Ascii.eqb c LF || Ascii.eqb c CR
  | None => false
  end.

(** [parse_process_char]; [None] is the end-of-line mark the reader feeds
    after the characters of each line. *)
Definition parse_process_char (delimiter quotechar : ascii)
    (r : reader) (c : option ascii) : exn + reader :=
  let start_field (r : reader) :=
    match c with
    | None => inr (set_state START_RECORD (parse_save_field r))
    | Some ch =>
        if is_newline c then inr (set_state EAT_CRNL (parse_save_field r))
        else if Ascii.eqb ch quotechar then inr (set_state IN_QUOTED_FIELD r)
        else if Ascii.eqb ch delimiter then inr (parse_save_field r)
        else then_state IN_FIELD (parse_add_char r ch)
    end in
  match state r with
  | START_RECORD =>
      match c with
      | None => inr r
      | Some _ =>
          if is_newline c then inr (set_state EAT_CRNL r)
          else start_field (set_state START_FIELD r)
      end
  | START_FIELD => start_field r
  | IN_FIELD =>
      match c with
      | None => inr (set_state START_RECORD (parse_save_field r))
      | Some ch =>
          if is_newline c then inr (set_state EAT_CRNL (parse_save_field r))
          else if Ascii.eqb ch delimiter then inr (set_state START_FIELD (parse_save_field r))
          else parse_add_char r ch
      end
  | IN_QUOTED_FIELD =>
      match c with
      | None => inr r
      | Some ch =>
          if Ascii.eqb ch quotechar then inr (set_state QUOTE_IN_QUOTED_FIELD r)
          else parse_add_char r ch
      end
  | QUOTE_IN_QUOTED_FIELD =>
      match c with
      | Some ch =>
          if Ascii.eqb ch quotechar then then_state IN_QUOTED_FIELD (parse_add_char r ch)
          else if Ascii.eqb ch delimiter then inr (set_state START_FIELD (parse_save_field r))
          else if is_newline c then inr (set_state EAT_CRNL (parse_save_field r))
          else then_state IN_FIELD (parse_add_char r ch)
      | None => inr (set_state START_RECORD (parse_save_field r))
      end
  | EAT_CRNL =>
      match c with
      | None => inr (set_state START_RECORD r)
      | Some _ => if is_newline c then inr r else inl CsvError
      end
  end.

(** The characters of one line; a NUL is an error. *)
Fixpoint parse_line (delimiter quotechar : ascii) (r : reader) (line : string) : exn + reader :=
  match line with
  | EmptyString => inr r
  | String c rest =>
      if Ascii.eqb c NUL then inl CsvError
      else match parse_process_char delimiter quotechar r (Some c) with
           | inl e => inl e
           | inr r' => parse_line delimiter quotechar r' rest
           end
  end.

(** The [do ... while (state != START_RECORD)] loop of [Reader_iternext]. *)
Fixpoint iternext (delimiter quotechar : ascii) (r : reader) (lines : list string)
  : exn + list string :=
  match lines with
  | [] =>
      if negb (String.eqb (field r) "")
         || match state r with IN_QUOTED_FIELD => true | _ => false end
      then inr (fields (parse_save_field r))
      else inl StopIteration
  | line :: rest =>
      match parse_line delimiter quotechar r line with
      | inl e => inl e
      | inr r1 =>
          match parse_process_char delimiter quotechar r1 None with
          | inl e => inl e
          | inr r2 =>
              match state r2 with
              | START_RECORD => inr (fields r2)
              | _ => iternext delimiter quotechar r2 rest
              end
          end
      end
  end.

Definition py_reader_next (delimiter quotechar : ascii) (content : string)
  : exn + list string :=
  iternext delimiter quotechar parse_reset (file_lines "" (universal_newlines content)).

(** The writer turns a field into text: a [str] as it is, [None] as the
    empty text, anything else through [str]. *)
Definition field_text (v : json) : string :=
  match v with
  | JStr s => s
  | JNull => ""
  | _ => py_str v
  end.

(** Characters that force quoting ([join_append_data]); NUL is there
    because the absent [escapechar] is stored as 0. *)
Definition needs_quote (delimiter quotechar c : ascii) : bool :=
  Ascii.eqb c delimiter || Ascii.eqb c NUL || Ascii.eqb c quotechar
  || Ascii.eqb c CR || Ascii.eqb c LF.

Definition join_append (delimiter quotechar : ascii) (quoted : bool) (text : string) : string :=
  let chars := list_ascii_of_string text in
  let quoted := quoted || existsb (needs_quote delimiter quotechar) chars in
  let body :=
    String.concat ""
      (map (fun c => if Ascii.eqb c quotechar then String quotechar (String c "")
                     else String c "") chars) in
  if quoted then String quotechar body +:+ String quotechar "" else body.

(** [csv_writerow]: a record made of one empty field is written quoted. *)
Definition py_writerow (delimiter quotechar : ascii) (row : list json) : string :=
  let rec :=
    String.concat (String delimiter "")
      (map (fun v => join_append delimiter quotechar false (field_text v)) row) in
  let rec :=
    if negb (Nat.eqb (length row) 0) && String.eqb rec ""
    then join_append delimiter quotechar true ""
    else rec in
  rec +:+ CRLF.

Definition py_csv : csv_module :=
  {| reader_next := py_reader_next; writerow := py_writerow |}.

End Csv.

(** ** The line dispatcher ([persist_lines], lines 33-107) *)

Module Dispatcher.
Import Py Flatten Csv.

(** One input line, as [json.loads] sees it. *)
Inductive line : Type :=
| Malformed
| Parsed (o : json).

(** The local variables of [persist_lines] and the file system.  A
    validator is kept as the schema it was built from. *)
Record world : Type := {
  filename : option string;
  state : json;
  schemas : gmap string json;
  key_properties : gmap string json;
  headers : gmap string (list string);
  validators : gmap string json;
  files : gmap string string
}.

Definition set_filename (f : string) (w : world) : world :=
  {| filename := Some f; state := state w; schemas := schemas w;
     key_properties := key_properties w; headers := headers w;
     validators := validators w; files := files w |}.

Definition set_state (v : json) (w : world) : world :=
  {| filename := filename w; state := v; schemas := schemas w;
     key_properties := key_properties w; headers := headers w;
     validators := validators w; files := files w |}.

Definition set_schema (stream : string) (v : json) (w : world) : world :=
  {| filename := filename w; state := state w; schemas := <[stream := v]> (schemas w);
     key_properties := key_properties w; headers := headers w;
     validators := validators w; files := files w |}.

Definition set_key_properties (stream : string) (v : json) (w : world) : world :=
  {| filename := filename w; state := state w; schemas := schemas w;
     key_properties := <[stream := v]> (key_properties w); headers := headers w;
     validators := validators w; files := files w |}.

Definition set_header (stream : string) (h : list string) (w : world) : world :=
  {| filename := filename w; state := state w; schemas := schemas w;
     key_properties := key_properties w; headers := <[stream := h]> (headers w);
     validators := validators w; files := files w |}.

Definition set_validator (stream : string) (schema : json) (w : world) : world :=
  {| filename := filename w; state := state w; schemas := schemas w;
     key_properties := key_properties w; headers := headers w;
     validators := <[stream := schema]> (validators w); files := files w |}.

(** Writing [text] to a file opened with mode ['a']: the file is created
    when missing. *)
Definition append_file (path text : string) (w : world) : world :=
  {| filename := filename w; state := state w; schemas := schemas w;
     key_properties := key_properties w; headers := headers w;
     validators := validators w;
     files := <[path := default "" (files w !! path) +:+ text]> (files w) |}.

(** *** Computations that read and write the world and may raise *)

(** [OutOfModel]: the run left what the model covers (a schema registered
    under a stream name that is hashable but not a [str]). *)
Inductive res (A : Type) : Type :=
| Done (a : A)
| Raise (e : exn)
| OutOfModel.

Arguments Done {A} a.
Arguments Raise {A} e.
Arguments OutOfModel {A}.

Definition M (A : Type) : Type := world -> world * res A.

Definition ret {A} (a : A) : M A := fun w => (w, Done a).

Definition raise {A} (e : exn) : M A := fun w => (w, Raise e).

Definition out_of_model {A} : M A := fun w => (w, OutOfModel).

Definition bind {A B} (m : M A) (k : A -> M B) : M B :=
  fun w =>
    match m w with
    | (w', Done a) => k a w'
    | (w', Raise e) => (w', Raise e)
    | (w', OutOfModel) => (w', OutOfModel)
    end.

Definition gets {A} (f : world -> A) : M A := fun w => (w, Done (f w)).

Definition modify (f : world -> world) : M unit := fun w => (f w, Done tt).

Definition lift {A} (x : exn + A) : M A :=
  match x with
  | inl e => raise e
  | inr a => ret a
  end.

Declare Scope py_scope.
Delimit Scope py_scope with py.
Notation "x <- m ;; k" := (bind m (fun x => k))
  (at level 100, m at next level, right associativity) : py_scope.
Notation "m ;; k" := (bind m (fun _ => k))
  (at level 100, right associativity) : py_scope.
Open Scope py_scope.

(** *** Operators on parsed values *)

Definition is_str (v : json) (s : string) : bool :=
  match v with
  | JStr s' => String.eqb s' s
  | _ => false
  end.

Fixpoint is_substring (p s : string) : bool :=
  String.prefix p s
  || match s with
     | EmptyString => false
     | String _ rest => is_substring p rest
     end.

(** [k in o] for a [str] [k]: key of a dict, element of a list, substring
    of a str; any other operand is not iterable. *)
Definition py_in (k : string) (o : json) : M bool :=
  match o with
  | JObj d => ret (dict_contains d k)
  | JArr items => ret (existsb (fun v => is_str v k) items)
  | JStr s => ret (is_substring k s)
  | _ => raise TypeError
  end.

(** [o[k]] for a [str] [k]. *)
Definition py_getitem (o : json) (k : string) : M json :=
  match o with
  | JObj d =>
      match dict_get d k with
      | Some v => ret v
      | None => raise (KeyError k)
      end
  | _ => raise TypeError
  end.

(** A stream name used as a key when a schema is registered: a list or an
    object cannot be hashed; [None] and numbers can, and leave the model. *)
Definition stream_key (v : json) : M string :=
  match v with
  | JStr s => ret s
  | JArr _ | JObj _ => raise TypeError
  | _ => out_of_model
  end.

(** [json.loads(line)] *)
Definition json_loads (l : line) : M json :=
  match l with
  | Malformed => raise JSONDecodeError
  | Parsed o => ret o
  end.

Definition file_is_empty (fs : gmap string string) (path : string) : bool :=
  match fs !! path with
  | None => true
  | Some content => String.eqb content ""
  end.

Section Run.

(** [Draft4Validator(schema).validate(instance)]: does the instance
    conform to the schema?  It raises [ValidationError] when not. *)
Variable validate : json -> json -> bool.
Variable csv : csv_module.
Variables delimiter quotechar : ascii.

(** [Draft4Validator(schema)]: the exception the constructor raises, if
    any (some versions of the library reject a schema that is not an
    object). *)
Variable construct : json -> option exn.

(** [open(path, 'a')] for a path that is not a file yet: the exception
    raised when the file cannot be created. *)
Variable create_error : string -> option exn.

(** Lines 60-63: [filename] is assigned when it is still [None]. *)
Definition resolve_filename (stream : string) : M string :=
  configured <- gets filename ;;
  match configured with
  | None => let f := stream +:+ ".csv" in modify (set_filename f) ;; ret f
  | Some f => ret f
  end.

(** Lines 69-77: the header of the stream. *)
Definition choose_header (stream path : string) (is_empty : bool)
    (flattened_record : dict json) : M unit :=
  seen <- gets (fun w => headers w !! stream) ;;
  match seen with
  | None =>
      if negb is_empty then
        content <- gets (fun w => default "" (files w !! path)) ;;
        first_line <- lift (reader_next csv delimiter quotechar content) ;;
        modify (set_header stream
                  match first_line with
                  | [] => dict_keys flattened_record
                  | _ => first_line
                  end)
      else modify (set_header stream (dict_keys flattened_record))
  | Some _ => modify (set_header stream (dict_keys flattened_record))
  end.

(** Lines 85-88: the text the two writes add to the file. *)
Definition written_text (fieldnames : list string) (is_empty : bool)
    (flattened_record : dict json) : string :=
  (if is_empty then writerow csv delimiter quotechar (header_row fieldnames) else "")
  +:+ writerow csv delimiter quotechar (dict_to_list fieldnames flattened_record).

(** Line 79: the file is opened for appending; a file that does not
    exist is created, empty, or the opening fails. *)
Definition open_append (path : string) : M unit :=
  existing <- gets (fun w => files w !! path) ;;
  match existing with
  | Some _ => ret tt
  | None =>
      match create_error path with
      | Some e => raise e
      | None => modify (append_file path "")
      end
  end.

(** Lines 60-90, for a record that passed validation: the file is opened,
    the header row is written when the file was empty, then the row. *)
Definition persist_record (stream : string) (record : json) : M unit :=
  path <- resolve_filename stream ;;
  is_empty <- gets (fun w => file_is_empty (files w) path) ;;
  flattened_record <- match record with
                      | JObj d => ret (flatten d)
                      | _ => raise AttributeError
                      end ;;
  choose_header stream path is_empty flattened_record ;;
  open_append path ;;
  fieldnames <- gets (fun w => default [] (headers w !! stream)) ;;
  (if is_empty
   then modify (append_file path (writerow csv delimiter quotechar (header_row fieldnames)))
   else ret tt) ;;
  modify (append_file path
            (writerow csv delimiter quotechar (dict_to_list fieldnames flattened_record))) ;;
  modify (set_state JNull).

(** The [RECORD] branch, lines 52-90.  The keys of [schemas] are all of
    type [str], so a stream name of another hashable type is not among
    them. *)
Definition handle_record (o : json) : M unit :=
  has_stream <- py_in "stream" o ;;
  if negb has_stream then raise (ProtocolError (MissingRequiredKey "stream")) else
  v <- py_getitem o "stream" ;;
  match v with
  | JArr _ | JObj _ => raise TypeError
  | JStr stream =>
      known <- gets (fun w => schemas w !! stream) ;;
      match known with
      | None => raise (ProtocolError (RecordBeforeSchema v))
      | Some schema =>
          validator <- gets (fun w => validators w !! stream) ;;
          match validator with
          | None => raise (KeyError stream)
          | Some validator_schema =>
              record <- py_getitem o "record" ;;
              if negb (validate validator_schema record) then raise ValidationError else
              persist_record stream record
          end
      end
  | _ => raise (ProtocolError (RecordBeforeSchema v))
  end.

(** The [STATE] branch, lines 92-93. *)
Definition handle_state (o : json) : M unit :=
  v <- py_getitem o "value" ;;
  modify (set_state v).

(** The [SCHEMA] branch, lines 95-102. *)
Definition handle_schema (o : json) : M unit :=
  has_stream <- py_in "stream" o ;;
  if negb has_stream then raise (ProtocolError (MissingRequiredKey "stream")) else
  v <- py_getitem o "stream" ;;
  schema <- py_getitem o "schema" ;;
  stream <- stream_key v ;;
  modify (set_schema stream schema) ;;
  schema <- py_getitem o "schema" ;;
  match construct schema with
  | Some e => raise e
  | None => modify (set_validator stream schema)
  end ;;
  has_key_properties <- py_in "key_properties" o ;;
  if negb has_key_properties then raise (ProtocolError KeyPropertiesRequired) else
  kp <- py_getitem o "key_properties" ;;
  modify (set_key_properties stream kp).

(** The body of the [for] loop, lines 41-105. *)
Definition process_line (l : line) : M unit :=
  o <- json_loads l ;;
  has_type <- py_in "type" o ;;
  if negb has_type then raise (ProtocolError (MissingRequiredKey "type")) else
  t <- py_getitem o "type" ;;
  if is_str t "RECORD" then handle_record o
  else if is_str t "STATE" then handle_state o
  else if is_str t "SCHEMA" then handle_schema o
  else raise (ProtocolError (UnknownMessageType t)).

Fixpoint for_lines (lines : list line) : M unit :=
  match lines with
  | [] => ret tt
  | l :: rest => process_line l ;; for_lines rest
  end.

End Run.

Definition initial_world (filename : option string) (fs : gmap string string) : world :=
  {| filename := filename; state := JNull; schemas := ∅; key_properties := ∅;
     headers := ∅; validators := ∅; files := fs |}.

(** [persist_lines(filename, delimiter, quotechar, lines)] run on the file
    system [fs]: the world it leaves and the state it returns or the
    exception it raises. *)
Definition persist_lines (validate : json -> json -> bool) (csv : csv_module)
    (construct : json -> option exn) (create_error : string -> option exn)
    (filename : option string) (delimiter quotechar : ascii)
    (lines : list line) (fs : gmap string string) : world * res json :=
  (for_lines validate csv delimiter quotechar construct create_error lines ;; gets state)
    (initial_world filename fs).

(** *** Reading a line as a message *)

(** The [type] field of a line that parsed to an object. *)
Definition message_type (l : line) : option json :=
  match l with
  | Parsed (JObj d) => dict_get d "type"
  | _ => None
  end.

Definition has_type (name : string) (l : line) : bool :=
  match message_type l with
  | Some t => is_str t name
  | None => false
  end.

Definition is_record (l : line) : bool := has_type "RECORD" l.

Definition is_state (l : line) : bool := has_type "STATE" l.

Definition message_field (name : string) (l : line) : option json :=
  match l with
  | Parsed (JObj d) => dict_get d name
  | _ => None
  end.

(** A [SCHEMA] message for the stream named [s]. *)
Definition is_schema_for (s : string) (l : line) : bool :=
  has_type "SCHEMA" l
  && match message_field "stream" l with
     | Some v => is_str v s
     | None => false
     end.

(** The checkpoint after a line that was processed without error, from the
    checkpoint before it. *)
Definition checkpoint_after (checkpoint : json) (l : line) : json :=
  if is_record l then JNull
  else if is_state l then default checkpoint (message_field "value" l)
  else checkpoint.

(** Every stream with a registered schema has a validator. *)
Definition validators_cover_schemas (w : world) : Prop :=
  forall s, is_Some (validators w !! s) \/ schemas w !! s = None.

(** A validator that lets every instance pass, as Draft 4 validation does
    for the empty schema; the example runs register no other schema. *)
Definition permissive (schema instance : json) : bool := true.

(** The constructor of the example runs: it builds a validator from a
    schema that is an object and raises [AttributeError] on any other, as
    the library does when it asks the schema for its [id]. *)
Definition builds_from_objects (schema : json) : option exn :=
  match schema with
  | JObj _ => None
  | _ => Some AttributeError
  end.

(** The directory of the example runs: every name they use can be
    created. *)
Definition creates_any_file (path : string) : option exn := None.

(** A directory without subdirectories: a name with a slash cannot be
    created, [open] raises [FileNotFoundError], an [OSError]. *)
Definition no_subdirectories (path : string) : option exn :=
  if has_char "/" path then Some OSError else None.

(** *** Messages of the example runs *)

(** [{"type": "SCHEMA", "stream": s, "schema": {}, "key_properties": []}] *)
Definition schema_msg (s : string) : line :=
  Parsed (JObj [("type", JStr "SCHEMA"); ("stream", JStr s);
                ("schema", JObj []); ("key_properties", JArr [])]).

(** [{"type": "RECORD", "stream": s, "record": {...}}] *)
Definition record_msg (s : string) (record : dict json) : line :=
  Parsed (JObj [("type", JStr "RECORD"); ("stream", JStr s); ("record", JObj record)]).

(** [{"type": "STATE", "value": v}] *)
Definition state_msg (v : json) : line :=
  Parsed (JObj [("type", JStr "STATE"); ("value", v)]).

End Dispatcher.

(** ** Emitting the state and the entry point ([emit_state], lines 16-21;
    [main], lines 109-135) *)

Module Main.
Import Py Flatten Csv Dispatcher.

(** *** [json.dumps] with its default arguments *)

(** One character of [encode_basestring_ascii]: printable ASCII other
    than the backslash and the double quote is kept, the rest is escaped. *)
Definition escape_char (c : ascii) : string :=
  let n := N_of_ascii c in
  if Ascii.eqb c backslash then String backslash (String backslash "")
  else if Ascii.eqb c dquote then String backslash (String dquote "")
  else if Ascii.eqb c "008" then "\b"
  else if Ascii.eqb c "012" then "\f"
  else if Ascii.eqb c "010" then "\n"
  else if Ascii.eqb c "013" then "\r"
  else if Ascii.eqb c "009" then "\t"
  else if ((32 <=? n) && (n <=? 126))%N then String c ""
  else "\u00" +:+ String (hex_digit (n / 16)) (String (hex_digit (n mod 16)) "").

Definition encode_basestring_ascii (s : string) : string :=
  String dquote (String.concat "" (map escape_char (list_ascii_of_string s)))
    +:+ String dquote "".

(** A float is written with its [repr], the three special values apart. *)
Definition dumps_float (repr : string) : string :=
  if String.eqb repr "nan" then "NaN"
  else if String.eqb repr "inf" then "Infinity"
  else if String.eqb repr "-inf" then "-Infinity"
  else repr.

Fixpoint json_dumps (v : json) : string :=
  match v with
  | JNull => "null"
  | JBool true => "true"
  | JBool false => "false"
  | JInt n => pretty n
  | JFloat r => dumps_float r
  | JStr s => encode_basestring_ascii s
  | JArr items => "[" +:+ String.concat ", " (map json_dumps items) +:+ "]"
  | JObj members =>
      "{" +:+ String.concat ", "
                (map (fun kv => encode_basestring_ascii (fst kv) +:+ ": "
                                +:+ json_dumps (snd kv)) members)
          +:+ "}"
  end.

(** [emit_state(state)]: the text written to the standard output. *)
Definition emit_state (state : json) : string :=
  match state with
  | JNull => ""
  | _ => json_dumps state +:+ String LF ""
  end.

(** *** [main] *)

(** The [--config] argument: absent (or empty), a file that cannot be
    opened or parsed, or the value [json.load] returns. *)
Inductive config_file : Type :=
| NoConfig
| ConfigError (e : exn)
| Config (config : json).

(** Lines 115-119. *)
Definition load_config (c : config_file) : exn + json :=
  match c with
  | NoConfig => inr (JObj [])
  | ConfigError e => inl e
  | Config config => inr config
  end.

(** [config.get(key, default)]: only a dict has the method. *)
Definition config_get (config : json) (key : string) (default : json) : exn + json :=
  match config with
  | JObj d => inr (dict_get_default d key default)
  | _ => inl AttributeError
  end.

(** Lines 121-125: [--output] when it is given and not empty; otherwise
    the configuration is asked for [filename] and the answer is dropped. *)
Definition choose_filename (config : json) (output : option string)
  : exn + option string :=
  match output with
  | Some o =>
      if truthy o then inr (Some o)
      else match config_get config "filename" JNull with
           | inl e => inl e
           | inr _ => inr None
           end
  | None =>
      match config_get config "filename" JNull with
      | inl e => inl e
      | inr _ => inr None
      end
  end.

(** A delimiter or quote character the [csv] module accepts: a [str] of
    one character. *)
Definition as_char (v : json) : option ascii :=
  match v with
  | JStr (String c EmptyString) => Some c
  | _ => None
  end.

(** [main()], given the parsed arguments, the lines of the standard input
    and the file system: the files it leaves, and the text written to the
    standard output or the exception.  A delimiter or quote character that
    [csv] rejects leaves the model. *)
Definition main (validate : json -> json -> bool) (csv : csv_module)
    (construct : json -> option exn) (create_error : string -> option exn)
    (config_arg : config_file) (output : option string)
    (stdin : list line) (fs : gmap string string)
  : gmap string string * res string :=
  match load_config config_arg with
  | inl e => (fs, Raise e)
  | inr config =>
      match choose_filename config output with
      | inl e => (fs, Raise e)
      | inr filename =>
          match config_get config "delimiter" (JStr ",") with
          | inl e => (fs, Raise e)
          | inr d =>
              match config_get config "quotechar" (JStr (String dquote "")) with
              | inl e => (fs, Raise e)
              | inr q =>
                  match as_char d, as_char q with
                  | Some delimiter, Some quotechar =>
                      let (w, r) :=
                        persist_lines validate csv construct create_error
                          filename delimiter quotechar stdin fs in
                      (files w,
                       match r with
                       | Done state => Done (emit_state state)
                       | Raise e => Raise e
                       | OutOfModel => OutOfModel
                       end)
                  | _, _ => (fs, OutOfModel)
                  end
              end
          end
      end
  end.

(** *** Notions used to state properties of runs *)

(** The schema of the last [SCHEMA] message for the stream [s]. *)
Definition registered_schema (s : string) (lines : list line) : option json :=
  fold_left (fun acc l => if is_schema_for s l then message_field "schema" l else acc)
    lines None.

(** A validator for the example runs that register the schema
    [{"type": "object"}]: it lets objects pass under that schema and
    everything under any other, as Draft 4 validation does for it and for
    the empty schema. *)
Definition object_validator (schema instance : json) : bool :=
  match schema with
  | JObj [("type", JStr "object")] => is_object instance
  | _ => true
  end.

(** [{"type": "SCHEMA", "stream": s, "schema": schema, "key_properties": []}] *)
Definition schema_msg_with (s : string) (schema : json) : line :=
  Parsed (JObj [("type", JStr "SCHEMA"); ("stream", JStr s);
                ("schema", schema); ("key_properties", JArr [])]).

(** What [flatten] stores for a value that is not an object. *)
Definition stored_value (v : json) : json :=
  if is_list v then JStr (py_str v) else v.

(** How a step relates the files before and after it: [w'] differs from
    [w] at most by text appended to the file that [filename] names, a
    name that is assigned once. *)
Record files_step (w w' : world) : Prop := {
  step_filename : filename w' = filename w \/ filename w = None;
  step_elsewhere : forall q, filename w' ≠ Some q -> files w' !! q = files w !! q;
  step_append : forall q c, files w !! q = Some c ->
                            exists t, files w' !! q = Some (c +:+ t)
}.

(** Printable ASCII. *)
Definition printable_ascii (c : ascii) : bool :=
  let n := N_of_ascii c in ((32 <=? n) && (n <=? 126))%N.

Definition printable (s : string) : bool :=
  forallb printable_ascii (list_ascii_of_string s).

(** The text that stands for each float of a value is printable ASCII,
    as the [repr] of a float is. *)
Fixpoint printable_floats (v : json) : bool :=
  match v with
  | JFloat r => printable r
  | JArr items => forallb printable_floats items
  | JObj members => forallb (fun kv => printable_floats (snd kv)) members
  | _ => true
  end.

End Main.

(** ** Properties of the flattener *)

Module FlattenProps.
Import Py Flatten.

(** *** Dictionaries built from item lists *)

Section dict_lemmas.

Context {V : Type}.
Implicit Types (d acc : dict V) (items : list (string * V)).

(** Setting a key that is not there appends the entry. *)
Lemma dict_set_fresh d k (v : V) :
  k ∉ dict_keys d -> dict_set d k v = d ++ [(k, v)].
Proof.
  induction d as [|[k' v'] d IH]; simpl; intros Hk; [done|].
  apply not_elem_of_cons in Hk as [Hne Hk].
  destruct (String.eqb_spec k' k) as [->|_]; [done|].
  by rewrite IH.
Qed.

(** A list of items with pairwise distinct keys is its own dictionary. *)
Lemma fold_dict_set_nodup items acc :
  NoDup (dict_keys (acc ++ items)) ->
  fold_left (fun d kv => dict_set d (fst kv) (snd kv)) items acc = acc ++ items.
Proof.
  revert acc. induction items as [|[k v] items IH]; intros acc Hnd; simpl.
  - by rewrite app_nil_r.
  - rewrite dict_set_fresh.
    + rewrite IH; rewrite <- app_assoc; done.
    + unfold dict_keys in Hnd. rewrite map_app in Hnd. simpl in Hnd.
      apply NoDup_app in Hnd as (_ & Hdisj & _).
      intros Hin. apply (Hdisj k Hin). left.
Qed.

Lemma dict_of_items_nodup items :
  NoDup (dict_keys items) -> dict_of_items items = items.
Proof. intros H. unfold dict_of_items. by rewrite fold_dict_set_nodup. Qed.

(** The keys of a dictionary stay distinct. *)
Lemma dict_set_keys d k (v : V) :
  dict_keys (dict_set d k v)
  = if decide (k ∈ dict_keys d) then dict_keys d else dict_keys d ++ [k].
Proof.
  induction d as [|[k' v'] d IH]; simpl; [done|].
  destruct (String.eqb_spec k' k) as [->|Hne]; simpl.
  - rewrite decide_True; [done|]. by left.
  - rewrite IH. destruct (decide (k ∈ dict_keys d)) as [Hin|Hin].
    + rewrite decide_True; [done|]. by right.
    + rewrite decide_False; [done|]. intros [?|?]%elem_of_cons; congruence.
Qed.

Lemma dict_set_nodup d k (v : V) :
  NoDup (dict_keys d) -> NoDup (dict_keys (dict_set d k v)).
Proof.
  intros Hd. rewrite dict_set_keys. case_decide; [done|].
  apply NoDup_app. split_and!; [done| |apply NoDup_singleton].
  intros x Hx ->%list_elem_of_singleton. done.
Qed.

Lemma dict_of_items_keys_nodup (items : list (string * V)) :
  NoDup (dict_keys (dict_of_items items)).
Proof.
  unfold dict_of_items.
  assert (NoDup (dict_keys ([] : dict V))) as Hacc by constructor.
  revert Hacc. generalize ([] : dict V) as acc.
  induction items as [|[k v] items IH]; intros acc Hacc; simpl; [done|].
  apply IH. by apply dict_set_nodup.
Qed.

Lemma dict_set_Forall (P : string * V -> Prop) d k v :
  (forall k1 k2 v, P (k1, v) -> P (k2, v)) ->
  Forall P d -> P (k, v) -> Forall P (dict_set d k v).
Proof.
  intros Hkey Hd Hv. induction Hd as [|[k' v'] d Hx Hd IH]; simpl.
  - by repeat constructor.
  - destruct (String.eqb k' k); constructor; eauto.
Qed.

Lemma dict_of_items_Forall (P : string * V -> Prop) (items : list (string * V)) :
  (forall k1 k2 v, P (k1, v) -> P (k2, v)) ->
  Forall P items -> Forall P (dict_of_items items).
Proof.
  intros Hkey. unfold dict_of_items.
  assert (Forall P ([] : dict V)) as Hacc by constructor.
  revert Hacc. generalize ([] : dict V) as acc.
  induction items as [|[k v] items IH]; intros acc Hacc Hitems; simpl; [done|].
  apply Forall_cons in Hitems as [Hkv Hitems].
  apply IH; [|done]. by apply dict_set_Forall.
Qed.

(** Setting a key twice is setting it to the second value. *)
Lemma dict_set_same d k (v v' : V) :
  dict_set (dict_set d k v) k v' = dict_set d k v'.
Proof.
  induction d as [|[k0 v0] d IH]; simpl.
  - by rewrite String.eqb_refl.
  - destruct (String.eqb_spec k0 k) as [->|Hne]; simpl.
    + by rewrite String.eqb_refl.
    + destruct (String.eqb_spec k0 k); [done|]. by rewrite IH.
Qed.

(** Two keys, one of them present, are set in either order. *)
Lemma dict_set_comm d k k' (v v' : V) :
  k ≠ k' -> k ∈ dict_keys d ->
  dict_set (dict_set d k' v') k v = dict_set (dict_set d k v) k' v'.
Proof.
  intros Hne. induction d as [|[k0 v0] d IH]; simpl; intros Hin.
  - by apply elem_of_nil in Hin.
  - destruct (String.eqb_spec k0 k') as [->|Hne']; simpl.
    + destruct (String.eqb_spec k' k) as [->|_]; [done|]. simpl.
      by rewrite String.eqb_refl.
    + destruct (String.eqb_spec k0 k) as [->|Hne0]; simpl.
      * by destruct (String.eqb_spec k k').
      * destruct (String.eqb_spec k0 k'); [done|].
        apply elem_of_cons in Hin as [->|Hin]; [done|]. by rewrite IH.
Qed.

Lemma dict_set_elem_of d k k' (v : V) :
  k ∈ dict_keys d -> k ∈ dict_keys (dict_set d k' v).
Proof.
  intros Hin. rewrite dict_set_keys. case_decide; [done|].
  apply elem_of_app. by left.
Qed.

Lemma dict_set_elem_of_same d k (v : V) : k ∈ dict_keys (dict_set d k v).
Proof.
  rewrite dict_set_keys. case_decide; [done|].
  apply elem_of_app. right. by apply list_elem_of_singleton.
Qed.

(** Setting a present key before or after a run of other keys. *)
Lemma fold_dict_set_comm items acc k (v : V) :
  k ∉ dict_keys items -> k ∈ dict_keys acc ->
  dict_set (fold_left (fun d kv => dict_set d (fst kv) (snd kv)) items acc) k v
  = fold_left (fun d kv => dict_set d (fst kv) (snd kv)) items (dict_set acc k v).
Proof.
  revert acc. induction items as [|[k1 v1] items IH]; intros acc Hk Hin; simpl; [done|].
  apply not_elem_of_cons in Hk as [Hne Hk]. simpl in Hne.
  rewrite IH by (try done; by apply dict_set_elem_of).
  by rewrite dict_set_comm.
Qed.

(** The entries of a dictionary, set after one more assignment to it, are
    the entries of the dictionary followed by the assignment. *)
Lemma fold_dict_set_last d acc k (v : V) :
  NoDup (dict_keys d) ->
  fold_left (fun d kv => dict_set d (fst kv) (snd kv)) (dict_set d k v) acc
  = dict_set (fold_left (fun d kv => dict_set d (fst kv) (snd kv)) d acc) k v.
Proof.
  revert acc. induction d as [|[k0 v0] d IH]; intros acc Hnd; simpl; [done|].
  apply NoDup_cons in Hnd as [Hk0 Hnd].
  destruct (String.eqb_spec k0 k) as [->|Hne]; simpl.
  - rewrite fold_dict_set_comm by (try done; apply dict_set_elem_of_same).
    by rewrite dict_set_same.
  - by rewrite IH.
Qed.

(** Building a dictionary from the items and setting its entries is
    setting the items. *)
Lemma fold_dict_set_dict items d acc :
  NoDup (dict_keys d) ->
  fold_left (fun d kv => dict_set d (fst kv) (snd kv))
    (fold_left (fun d kv => dict_set d (fst kv) (snd kv)) items d) acc
  = fold_left (fun d kv => dict_set d (fst kv) (snd kv)) items
      (fold_left (fun d kv => dict_set d (fst kv) (snd kv)) d acc).
Proof.
  revert d. induction items as [|[k v] items IH]; intros d Hnd; simpl; [done|].
  rewrite IH by (by apply dict_set_nodup). by rewrite fold_dict_set_last.
Qed.

(** A run of items may be replaced by the dictionary built from it. *)
Lemma dict_of_items_splice (before items after : list (string * V)) :
  dict_of_items (before ++ dict_of_items items ++ after)
  = dict_of_items (before ++ items ++ after).
Proof.
  unfold dict_of_items. rewrite !fold_left_app. f_equal.
  apply (fold_dict_set_dict items []). constructor.
Qed.

End dict_lemmas.

(** Renaming the keys by an injective function commutes with building the
    dictionary. *)
Section rename.

Context {V : Type} (g : string -> string) `{!Inj (=) (=) g}.

#[local] Abbreviation rename := (@rename V g).

Lemma dict_set_rename (d : dict V) k v :
  dict_set (map rename d) (g k) v = map rename (dict_set d k v).
Proof.
  induction d as [|[k' v'] d IH]; simpl; [done|].
  destruct (String.eqb_spec k' k) as [->|Hne].
  - by rewrite String.eqb_refl.
  - destruct (String.eqb_spec (g k') (g k)) as [Heq|_].
    + by apply (inj g) in Heq.
    + by rewrite IH.
Qed.

Lemma fold_dict_set_rename (items : list (string * V)) (acc : dict V) :
  fold_left (fun d kv => dict_set d (fst kv) (snd kv)) (map rename items) (map rename acc)
  = map rename (fold_left (fun d kv => dict_set d (fst kv) (snd kv)) items acc).
Proof.
  revert acc. induction items as [|[k v] items IH]; intros acc; simpl; [done|].
  by rewrite dict_set_rename, IH.
Qed.

Lemma dict_of_items_rename (items : list (string * V)) :
  dict_of_items (map rename items) = map rename (dict_of_items items).
Proof. apply (fold_dict_set_rename items []). Qed.

End rename.


(** *** The two loops as [flat_map] *)

Lemma flatten_json_obj members parent_key sep :
  flatten_json (JObj members) parent_key sep
  = dict_of_items (flat_map (flatten_items parent_key sep) members).
Proof.
  simpl. f_equal.
  induction members as [|[k v] members IH]; simpl; [done|].
  rewrite IH. by destruct v.
Qed.

Lemma flatten_ref_obj members :
  flatten_ref (JObj members) = dict_of_items (flat_map ref_entries members).
Proof.
  simpl. f_equal.
  induction members as [|[k v] members IH]; simpl; [done|].
  rewrite IH. by destruct v.
Qed.

Lemma flatten_unfold d :
  flatten d = dict_of_items (flat_map (flatten_items "" "__") d).
Proof. apply flatten_json_obj. Qed.

Lemma truthy_spec s : truthy s = true <-> s ≠ "".
Proof. unfold truthy. destruct (String.eqb_spec s ""); naive_solver. Qed.

Lemma join_key_nonempty p k : join_key p k ≠ "".
Proof. unfold join_key. destruct p; discriminate. Qed.

Lemma string_app_assoc (a b c : string) : (a +:+ b) +:+ c = a +:+ b +:+ c.
Proof.
  induction a as [|x a IH]; [done|].
  change (String x ((a +:+ b) +:+ c) = String x (a +:+ b +:+ c)). by f_equal.
Qed.

Lemma join_key_assoc p k k' :
  join_key (join_key p k) k' = join_key p (join_key k k').
Proof. unfold join_key. by rewrite !string_app_assoc. Qed.

Lemma join_key_code p k : (p +:+ "__") +:+ k = join_key p k.
Proof. apply string_app_assoc. Qed.

#[local] Instance join_key_inj p : Inj (=) (=) (join_key p).
Proof.
  intros k k'. unfold join_key. intros H.
  apply (inj (String.app p)) in H. by apply (inj (String.app "__")) in H.
Qed.

(** Below a non-empty parent key the code produces the entries of the
    reference, each key joined to the parent. *)
Lemma flatten_json_joined v p :
  p ≠ "" ->
  flatten_json v p "__" = map (rename (join_key p)) (flatten_ref v).
Proof.
  revert p. induction v as [| | | | | |members IH] using json_ind; intros p Hp; try done.
  rewrite flatten_json_obj, flatten_ref_obj, <- dict_of_items_rename by apply _.
  f_equal.
  induction IH as [|[k v] members Hv _ IHm]; simpl; [done|].
  rewrite map_app, <- IHm. f_equal.
  unfold flatten_items, ref_entries; cbn [fst snd] in *.
  apply truthy_spec in Hp as ->. rewrite join_key_code.
  destruct v; try done.
  rewrite (Hv (join_key p k)) by apply join_key_nonempty.
  rewrite map_map. apply map_ext. intros [k' v']. unfold rename; simpl.
  by rewrite join_key_assoc.
Qed.


(** On an object that stores no object under the empty key the code
    computes the reference. *)
Lemma flatten_reference_away_from_empty_key (d : dict json) :
  no_object_under_empty_key d ->
  flatten d = flatten_ref (JObj d).
Proof.
  intros Hd. rewrite flatten_unfold, flatten_ref_obj. f_equal.
  induction Hd as [|[k v] d Hk _ IH]; simpl; [done|].
  rewrite IH. f_equal.
  unfold flatten_items, ref_entries; cbn [fst snd truthy] in *.
  change (negb (String.eqb "" "")) with false. cbn iota.
  destruct v; try done.
  assert (k ≠ "") as Hne by (intros ->; by specialize (Hk eq_refl)).
  rewrite flatten_json_joined by done. apply map_ext. by intros [k' v'].
Qed.

(** An object stored under the empty key is flattened with the empty
    parent key, which the code reads as no parent: its fields are
    flattened as if they stood in its place. *)
Lemma flatten_empty_key_splice (before members after : dict json) :
  flatten (before ++ ("", JObj members) :: after)
  = flatten (before ++ members ++ after).
Proof.
  rewrite !flatten_unfold, !flat_map_app.
  change (flat_map (flatten_items "" "__") (("", JObj members) :: after))
    with (flatten_json (JObj members) "" "__"
          ++ flat_map (flatten_items "" "__") after)%list.
  rewrite flatten_json_obj. apply dict_of_items_splice.
Qed.

(** C6 (as amended).  [flatten] computes the reference definition of the
    specification (object values flattened recursively with parent and
    child keys joined by ["__"], lists replaced by their string
    representation, other values kept, empty objects contributing
    nothing) on every object that stores no object under the empty key;
    and an object stored under the empty key is treated as having no
    parent: wherever it stands, the result is that of the object with the
    fields of the stored object in its place, their keys without the
    ["__"] prefix. *)
Theorem flatten_matches_reference (d : dict json) :
  (no_object_under_empty_key d -> flatten d = flatten_ref (JObj d))
  /\ (forall before members after,
        d = (before ++ ("", JObj members) :: after)%list ->
        flatten d = flatten (before ++ members ++ after)).
Proof.
  split.
  - apply flatten_reference_away_from_empty_key.
  - intros before members after ->. apply flatten_empty_key_splice.
Qed.

Lemma flatten_matches_reference_witness :
  let d := [("a", JObj [("b", JInt 1); ("c", JObj [("", JObj [("d", JNull)])])]);
            ("e", JObj []); ("tags", JArr [JInt 1; JInt 2]); ("", JBool true)] in
  let e := [("x", JInt 0); ("", JObj [("x", JInt 1); ("y", JObj [("z", JInt 2)])]);
            ("y__z", JInt 3)] in
  (no_object_under_empty_key d
   /\ flatten d = flatten_ref (JObj d)
   /\ flatten d = [("a__b", JInt 1); ("a__c____d", JNull);
                   ("tags", JStr "[1, 2]"); ("", JBool true)])
  /\ (flatten e
      = flatten [("x", JInt 0); ("x", JInt 1); ("y", JObj [("z", JInt 2)]); ("y__z", JInt 3)]
      /\ flatten e = [("x", JInt 1); ("y__z", JInt 3)]).
Proof.
  intros d e. split.
  - assert (no_object_under_empty_key d) as Hd.
    { repeat constructor; simpl; intros; done. }
    split; [exact Hd|]. split; [exact (proj1 (flatten_matches_reference d) Hd)|].
    vm_compute. reflexivity.
  - split; [|vm_compute; reflexivity].
    exact (proj2 (flatten_matches_reference e)
             [("x", JInt 0)] [("x", JInt 1); ("y", JObj [("z", JInt 2)])]
             [("y__z", JInt 3)] eq_refl).
Defined.

(** C6 as stated fails: under the empty parent key the code does not join
    with ["__"], it treats the children as top-level fields. *)
Lemma flatten_empty_parent_key_counterexample :
  let d := [("", JObj [("b", JInt 1)])] in
  flatten d = [("b", JInt 1)]
  /\ flatten_ref (JObj d) = [("__b", JInt 1)]
  /\ flatten d ≠ flatten_ref (JObj d).
Proof. vm_compute. repeat split; discriminate. Qed.

(** What [flatten] returns holds neither objects nor lists. *)
Lemma flatten_json_scalar_valued v parent_key sep :
  scalar_valued (flatten_json v parent_key sep).
Proof.
  revert parent_key.
  induction v as [| | | | | |members IH] using json_ind; intros p; try by constructor.
  rewrite flatten_json_obj. apply dict_of_items_Forall; [by intros ??? |].
  induction IH as [|[k v] members Hv _ IHm]; simpl; [constructor|].
  apply Forall_app. split; [|done].
  unfold flatten_items; cbn [fst snd] in *.
  destruct v; try (by repeat constructor). apply Hv.
Qed.

Lemma flat_map_flatten_items_scalar d :
  scalar_valued d -> flat_map (flatten_items "" "__") d = d.
Proof.
  induction 1 as [|[k v] d [Hobj Hlist] _ IH]; simpl; [done|].
  rewrite IH. unfold flatten_items; cbn [fst snd] in *.
  change (truthy "") with false. cbn iota.
  by destruct v.
Qed.

(** C8 (as amended).  An object (a dictionary: its keys are distinct)
    whose values are neither objects nor lists is returned unchanged by
    [flatten]. *)
Theorem flatten_scalar_valued_unchanged (d : dict json) :
  NoDup (dict_keys d) ->
  scalar_valued d ->
  flatten d = d.
Proof.
  intros Hnd Hd. rewrite flatten_unfold, flat_map_flatten_items_scalar by done.
  by apply dict_of_items_nodup.
Qed.

Lemma flatten_scalar_valued_unchanged_witness :
  let d := [("a", JInt 1); ("b", JStr "x"); ("c", JNull); ("d", JBool false); ("e", JFloat "1.5")] in
  NoDup (dict_keys d) /\ scalar_valued d /\ flatten d = d.
Proof.
  intros d.
  assert (NoDup (dict_keys d)) as Hnd by (apply (bool_decide_unpack _); vm_compute; exact I).
  assert (scalar_valued d) as Hd by (repeat constructor).
  exact (conj Hnd (conj Hd (flatten_scalar_valued_unchanged d Hnd Hd))).
Defined.

(** C8 as stated fails: an object without nested objects may hold a list,
    and [flatten] replaces the list by its string representation. *)
Lemma flatten_flat_object_counterexample :
  let d := [("tags", JArr [JInt 1; JInt 2])] in
  flat_object d
  /\ flatten d = [("tags", JStr "[1, 2]")]
  /\ flatten d ≠ d.
Proof.
  intros d. split; [repeat constructor|]. split; [by vm_compute|].
  vm_compute. discriminate.
Qed.

(** X10.  Flattening twice is flattening once: [flatten] is idempotent on
    every object. *)
Corollary flatten_idempotent d : flatten (flatten d) = flatten d.
Proof.
  rewrite (flatten_unfold (flatten d)).
  rewrite flat_map_flatten_items_scalar by apply flatten_json_scalar_valued.
  apply dict_of_items_nodup. rewrite flatten_unfold. apply dict_of_items_keys_nodup.
Qed.

End FlattenProps.

(** ** Properties of the dispatcher *)

Module DispatcherProps.
Import Py Flatten Csv Dispatcher.

Lemma is_str_spec v s : is_str v s = true <-> v = JStr s.
Proof.
  destruct v; simpl; try (split; discriminate).
  destruct (String.eqb_spec s0 s); naive_solver.
Qed.

Section Run.

Variable validate : json -> json -> bool.
Variable csv : csv_module.
Variables delimiter quotechar : ascii.
Variable construct : json -> option exn.
Variable create_error : string -> option exn.

#[local] Abbreviation process_line :=
  (process_line validate csv delimiter quotechar construct create_error).
#[local] Abbreviation handle_record :=
  (handle_record validate csv delimiter quotechar create_error).
#[local] Abbreviation handle_schema := (handle_schema construct).
#[local] Abbreviation for_lines :=
  (for_lines validate csv delimiter quotechar construct create_error).
#[local] Abbreviation persist_record := (persist_record csv delimiter quotechar create_error).
#[local] Abbreviation open_append := (open_append create_error).
#[local] Abbreviation choose_header := (choose_header csv delimiter quotechar).
#[local] Abbreviation written_text := (written_text csv delimiter quotechar).
#[local] Abbreviation persist_lines := (persist_lines validate csv construct create_error).

Ltac exec :=
  unfold Dispatcher.handle_record, Dispatcher.persist_record, Dispatcher.choose_header,
    Dispatcher.open_append, resolve_filename, handle_state, Dispatcher.handle_schema,
    py_in, py_getitem, stream_key, lift, dict_contains,
    bind, gets, modify, out_of_model, raise, ret in *;
  cbn beta iota in *.

(** *** The branches, one equation each *)

(** A line that parsed to an object with a [type] field reaches the
    branch for that type. *)
Lemma process_line_typed d t w :
  dict_get d "type" = Some t ->
  process_line (Parsed (JObj d)) w
  = (if is_str t "RECORD" then handle_record (JObj d)
     else if is_str t "STATE" then handle_state (JObj d)
     else if is_str t "SCHEMA" then handle_schema (JObj d)
     else raise (ProtocolError (UnknownMessageType t))) w.
Proof.
  intros Ht. unfold Dispatcher.process_line, bind, json_loads, py_in, py_getitem, ret, dict_contains.
  by rewrite Ht.
Qed.

Lemma handle_state_obj d w :
  handle_state (JObj d) w
  = match dict_get d "value" with
    | Some v => (set_state v w, Done tt)
    | None => (w, Raise (KeyError "value"))
    end.
Proof. exec. by destruct (dict_get d "value"). Qed.

Lemma handle_schema_obj d s w :
  dict_get d "stream" = Some (JStr s) ->
  handle_schema (JObj d) w
  = match dict_get d "schema" with
    | None => (w, Raise (KeyError "schema"))
    | Some schema =>
        match construct schema with
        | Some e => (set_schema s schema w, Raise e)
        | None =>
            let w1 := set_validator s schema (set_schema s schema w) in
            match dict_get d "key_properties" with
            | None => (w1, Raise (ProtocolError KeyPropertiesRequired))
            | Some kp => (set_key_properties s kp w1, Done tt)
            end
        end
    end.
Proof.
  intros Hs. exec. rewrite Hs. cbn.
  destruct (dict_get d "schema") as [schema|]; [|done].
  destruct (construct schema); [done|].
  by destruct (dict_get d "key_properties").
Qed.

Lemma handle_record_obj d s w :
  dict_get d "stream" = Some (JStr s) ->
  handle_record (JObj d) w
  = match schemas w !! s with
    | None => (w, Raise (ProtocolError (RecordBeforeSchema (JStr s))))
    | Some _ =>
        match validators w !! s with
        | None => (w, Raise (KeyError s))
        | Some schema =>
            match dict_get d "record" with
            | None => (w, Raise (KeyError "record"))
            | Some record =>
                if validate schema record then persist_record s record w
                else (w, Raise ValidationError)
            end
        end
    end.
Proof.
  intros Hs. unfold Dispatcher.handle_record, py_in, py_getitem, dict_contains,
    bind, gets, raise, ret.
  rewrite Hs. cbn.
  destruct (schemas w !! s); [|done].
  destruct (validators w !! s); [|done].
  destruct (dict_get d "record"); [|done].
  by destruct (validate _ _).
Qed.

(** Two writes to the same file are one write of the two texts. *)
Lemma append_file_append path t1 t2 w :
  append_file path t2 (append_file path t1 w) = append_file path (t1 +:+ t2) w.
Proof.
  unfold append_file. cbn. f_equal.
  rewrite lookup_insert_eq, insert_insert_eq. cbn.
  by rewrite FlattenProps.string_app_assoc.
Qed.

Lemma persist_record_obj s record w :
  persist_record s (JObj record) w
  = let path := default (s +:+ ".csv") (filename w) in
    let w1 := match filename w with None => set_filename path w | Some _ => w end in
    let is_empty := file_is_empty (files w) path in
    let flat := flatten record in
    match choose_header s path is_empty flat w1 with
    | (w2, Done _) =>
        match files w2 !! path, create_error path with
        | None, Some e => (w2, Raise e)
        | _, _ =>
            (set_state JNull
               (append_file path
                  (written_text (default [] (headers w2 !! s)) is_empty flat) w2),
             Done tt)
        end
    | (w2, Raise e) => (w2, Raise e)
    | (w2, OutOfModel) => (w2, OutOfModel)
    end.
Proof.
  unfold Dispatcher.persist_record, resolve_filename, Dispatcher.open_append,
    Dispatcher.written_text, bind, gets, modify, ret, raise.
  destruct (filename w); cbn [default]; cbv zeta.
  all: destruct (choose_header _ _ _ _ _) as [w2 [[]| |]]; [|done..].
  all: destruct (files w2 !! _) as [c|]; [|destruct (create_error _); [done|]].
  all: destruct (file_is_empty _ _); by rewrite ?append_file_append.
Qed.

Lemma choose_header_from_file s path flat w content row :
  headers w !! s = None ->
  files w !! path = Some content ->
  reader_next csv delimiter quotechar content = inr row ->
  choose_header s path false flat w
  = (set_header s match row with [] => dict_keys flat | _ :: _ => row end w, Done tt).
Proof.
  intros Hh Hf Hrow.
  unfold Dispatcher.choose_header, lift, bind, gets, modify, ret.
  rewrite Hh. cbn. rewrite Hf. cbn. by rewrite Hrow.
Qed.

(** Once [filename] is set it names the file of every later record,
    whatever the stream. *)
Lemma resolve_filename_set stream f w :
  filename w = Some f -> resolve_filename stream w = (w, Done f).
Proof. intros H. unfold resolve_filename, bind, gets, ret. by rewrite H. Qed.

(** A stream that has a header gets a new one from each record. *)
Lemma choose_header_seen s path is_empty flat w h :
  headers w !! s = Some h ->
  choose_header s path is_empty flat w = (set_header s (dict_keys flat) w, Done tt).
Proof. intros H. unfold Dispatcher.choose_header, bind, gets, modify. by rewrite H. Qed.

(** *** What each branch does to the checkpoint and to the registered
    schemas and validators *)

Lemma handle_record_effect o w w' r :
  handle_record o w = (w', r) ->
  schemas w' = schemas w /\ validators w' = validators w
  /\ (r = Done tt -> state w' = JNull).
Proof.
  exec. intros H.
  repeat (case_match; simplify_eq/=; try done).
Qed.

Lemma handle_state_effect o w w' r :
  handle_state o w = (w', r) ->
  schemas w' = schemas w /\ validators w' = validators w /\ files w' = files w
  /\ (r = Done tt -> exists d v, o = JObj d /\ dict_get d "value" = Some v /\ state w' = v).
Proof using Type.
  exec. intros H.
  repeat (case_match; simplify_eq/=; try done).
  split_and!; [done..|]. intros _. eauto.
Qed.

Lemma handle_schema_effect o w w' r :
  handle_schema o w = (w', r) ->
  state w' = state w /\ files w' = files w
  /\ (forall s, (forall d, o = JObj d -> dict_get d "stream" ≠ Some (JStr s)) ->
                schemas w' !! s = schemas w !! s)
  /\ (r = Done tt ->
      forall s, is_Some (validators w !! s) \/ schemas w !! s = None ->
                is_Some (validators w' !! s) \/ schemas w' !! s = None).
Proof.
  destruct o as [| | | | | |d];
    try (exec; intros [= <- <-]; done);
    try (exec; case_match; intros [= <- <-]; done).
  destruct (dict_get d "stream") as [v|] eqn:Hv;
    [|exec; rewrite Hv; intros [= <- <-]; done].
  destruct v as [| | | |s| |];
    try (exec; rewrite Hv; cbn; intros H; repeat (case_match; simplify_eq/=); done).
  rewrite (handle_schema_obj _ _ _ Hv).
  assert (forall sch s', s ≠ s' -> <[s:=sch]> (schemas w) !! s' = schemas w !! s') as Hne
    by (intros; by rewrite lookup_insert_ne).
  assert (forall (sch : json) s',
            is_Some (validators w !! s') \/ schemas w !! s' = None ->
            is_Some (<[s:=sch]> (validators w) !! s') \/ <[s:=sch]> (schemas w) !! s' = None)
    as Hinv.
  { intros sch s' H. destruct (decide (s = s')) as [->|];
      [rewrite lookup_insert_eq; eauto | by rewrite !lookup_insert_ne]. }
  destruct (dict_get d "schema") as [sch|]; [|intros [= <- <-]; done].
  destruct (construct sch);
    [|destruct (dict_get d "key_properties")]; intros [= <- <-]; cbn;
    (split_and!; [done|done| |try done; intros _ s'; by apply Hinv]);
    intros s' Hs'; apply Hne; intros ->; by eapply Hs'.
Qed.

(** A line without a [type] to dispatch on raises and changes nothing. *)
Lemma process_line_untyped l w :
  message_type l = None ->
  exists e, process_line l w = (w, Raise e).
Proof.
  unfold Dispatcher.process_line, json_loads, py_in, py_getitem, dict_contains, bind, raise, ret.
  destruct l as [|o]; [eauto|]. destruct o; simpl; eauto.
  - destruct (is_substring _ _); simpl; eauto.
  - destruct (existsb _ _); simpl; eauto.
  - intros ->. simpl. eauto.
Qed.

(** Every line falls under one of five cases. *)
Lemma process_line_cases l w :
  (message_type l = None /\ exists e, process_line l w = (w, Raise e))
  \/ exists d t, l = Parsed (JObj d) /\ dict_get d "type" = Some t
     /\ ((is_record l = true /\ process_line l w = handle_record (JObj d) w)
         \/ (is_record l = false /\ is_state l = true
             /\ process_line l w = handle_state (JObj d) w)
         \/ (is_record l = false /\ is_state l = false /\ has_type "SCHEMA" l = true
             /\ process_line l w = handle_schema (JObj d) w)
         \/ (is_record l = false /\ is_state l = false /\ has_type "SCHEMA" l = false
             /\ process_line l w = (w, Raise (ProtocolError (UnknownMessageType t))))).
Proof.
  destruct (message_type l) as [t|] eqn:Ht; [right|left; eauto using process_line_untyped].
  destruct l as [|[| | | | | |d]]; try done. simpl in Ht.
  exists d, t. split_and!; try done.
  rewrite (process_line_typed _ _ _ Ht).
  unfold is_record, is_state, has_type. simpl. rewrite Ht.
  destruct (is_str t "RECORD"); [by left|right].
  destruct (is_str t "STATE"); [by left|right].
  destruct (is_str t "SCHEMA"); [by left|by right].
Qed.

Lemma process_line_checkpoint l w w' :
  process_line l w = (w', Done tt) ->
  state w' = checkpoint_after (state w) l.
Proof.
  intros H. unfold checkpoint_after.
  destruct (process_line_cases l w)
    as [[_ [e He]]|(d & t & -> & Ht & [(-> & Hl)|[(-> & -> & Hl)|[(-> & -> & _ & Hl)|(_ & _ & _ & Hl)]]])];
    rewrite H in *; try done.
  - symmetry in Hl. by apply handle_record_effect in Hl as (_ & _ & ->).
  - symmetry in Hl. apply handle_state_effect in Hl as (_ & _ & _ & Hv).
    destruct Hv as (d' & v & [= <-] & Hv & ->); [done|]. simpl. by rewrite Hv.
  - symmetry in Hl. by apply handle_schema_effect in Hl as (-> & _).
Qed.

Lemma process_line_schemas l w w' r s :
  process_line l w = (w', r) ->
  is_schema_for s l = false ->
  schemas w' !! s = schemas w !! s.
Proof.
  intros H Hs.
  destruct (process_line_cases l w)
    as [[_ [e He]]|(d & t & -> & Ht & [(_ & Hl)|[(_ & _ & Hl)|[(_ & _ & Hsch & Hl)|(_ & _ & _ & Hl)]]])];
    rewrite H in *; simplify_eq; try done.
  - symmetry in Hl. by apply handle_record_effect in Hl as (-> & _).
  - symmetry in Hl. by apply handle_state_effect in Hl as (-> & _).
  - symmetry in Hl. apply handle_schema_effect in Hl as (_ & _ & Hl & _).
    apply Hl. intros d' [= <-] Hd.
    unfold is_schema_for in Hs. rewrite Hsch in Hs. simpl in Hs. rewrite Hd in Hs.
    simpl in Hs. by rewrite String.eqb_refl in Hs.
Qed.

Lemma process_line_validators l w w' :
  process_line l w = (w', Done tt) ->
  validators_cover_schemas w -> validators_cover_schemas w'.
Proof.
  intros H Hw.
  destruct (process_line_cases l w)
    as [[_ [e He]]|(d & t & -> & Ht & [(_ & Hl)|[(_ & _ & Hl)|[(_ & _ & Hsch & Hl)|(_ & _ & _ & Hl)]]])];
    rewrite H in *; simplify_eq; try done.
  - symmetry in Hl. apply handle_record_effect in Hl as (Hs & Hv & _).
    intros s. by rewrite Hs, Hv.
  - symmetry in Hl. apply handle_state_effect in Hl as (Hs & Hv & _).
    intros s. by rewrite Hs, Hv.
  - symmetry in Hl. apply handle_schema_effect in Hl as (_ & _ & _ & Hl).
    intros s. by apply Hl.
Qed.

(** The loop over a concatenation. *)
Lemma for_lines_app pre post w :
  for_lines (pre ++ post) w = (for_lines pre ;; for_lines post) w.
Proof.
  revert w. induction pre as [|l pre IH]; intros w; simpl; [done|].
  unfold bind. destruct (process_line l w) as [w1 [[]| |]]; [|done..].
  rewrite IH. done.
Qed.

Lemma for_lines_app_done pre post w w1 :
  for_lines pre w = (w1, Done tt) ->
  for_lines (pre ++ post) w = for_lines post w1.
Proof. intros H. rewrite for_lines_app. unfold bind. by rewrite H. Qed.

Lemma persist_lines_done filename lines fs w c :
  persist_lines filename delimiter quotechar lines fs = (w, Done c) <->
  for_lines lines (initial_world filename fs) = (w, Done tt) /\ c = state w.
Proof.
  unfold Dispatcher.persist_lines, bind, gets.
  destruct (for_lines lines _) as [w1 [[]| |]]; split;
    try (intros [= <- <-]; done); try (intros [[= <-] ->]; done);
    intros []; done.
Qed.

(** When the line after a successful prefix raises, the run stops there. *)
Lemma persist_lines_raise_after filename pre l post fs w c w' e :
  persist_lines filename delimiter quotechar pre fs = (w, Done c) ->
  process_line l w = (w', Raise e) ->
  persist_lines filename delimiter quotechar (pre ++ l :: post) fs
  = (w', Raise e).
Proof.
  intros [Hpre _]%persist_lines_done Hl.
  unfold Dispatcher.persist_lines, bind. rewrite (for_lines_app_done _ _ _ _ Hpre). simpl.
  unfold bind. by rewrite Hl.
Qed.

(** *** Whole runs *)

Lemma for_lines_checkpoint lines w w' :
  for_lines lines w = (w', Done tt) ->
  state w' = fold_left checkpoint_after lines (state w).
Proof.
  revert w. induction lines as [|l lines IH]; intros w; simpl.
  - by intros [= <-].
  - unfold bind. destruct (process_line l w) as [w1 [[]| |]] eqn:Hl; try done.
    intros H. rewrite (IH _ H). by rewrite (process_line_checkpoint _ _ _ Hl).
Qed.

Lemma for_lines_schemas lines w w' r s :
  for_lines lines w = (w', r) ->
  Forall (fun l => is_schema_for s l = false) lines ->
  schemas w' !! s = schemas w !! s.
Proof.
  intros H Hs. revert w H. induction Hs as [|l lines Hl _ IH]; intros w; simpl.
  - by intros [= <- _].
  - unfold bind. destruct (process_line l w) as [w1 r1] eqn:H1.
    rewrite <- (process_line_schemas _ _ _ _ _ H1 Hl).
    destruct r1 as [[]| |]; [apply IH|by intros [= <- _]..].
Qed.

Lemma for_lines_validators lines w w' :
  for_lines lines w = (w', Done tt) ->
  validators_cover_schemas w -> validators_cover_schemas w'.
Proof.
  revert w. induction lines as [|l lines IH]; intros w; simpl.
  - by intros [= <-].
  - unfold bind. destruct (process_line l w) as [w1 [[]| |]] eqn:H1; [|done..].
    intros H Hw. eapply IH; [done|]. by eapply process_line_validators.
Qed.

Lemma initial_world_validators filename fs :
  validators_cover_schemas (initial_world filename fs).
Proof. intros s. by right. Qed.

(** *** The checkpoint as a function of the input *)

Lemma state_is_not_record l : is_state l = true -> is_record l = false.
Proof.
  unfold is_state, is_record, has_type. destruct (message_type l) as [t|]; [|done].
  intros ->%is_str_spec. done.
Qed.

Lemma checkpoint_after_others post c :
  Forall (fun l => is_record l = false /\ is_state l = false) post ->
  fold_left checkpoint_after post c = c.
Proof.
  induction 1 as [|l post [Hr Hs] _ IH]; simpl; [done|].
  unfold checkpoint_after at 2. by rewrite Hr, Hs.
Qed.

Lemma checkpoint_after_last_state pre l post v c :
  is_state l = true -> message_field "value" l = Some v ->
  Forall (fun l => is_record l = false /\ is_state l = false) post ->
  fold_left checkpoint_after (pre ++ l :: post) c = v.
Proof.
  intros Hl Hv Hpost. rewrite fold_left_app. simpl.
  rewrite checkpoint_after_others by done.
  unfold checkpoint_after. by rewrite (state_is_not_record _ Hl), Hl, Hv.
Qed.

Lemma checkpoint_after_consumed lines :
  (forall pre l post, lines = pre ++ l :: post -> is_state l = true ->
                      Exists (fun l' => is_record l' = true) post) ->
  fold_left checkpoint_after lines JNull = JNull.
Proof.
  induction lines as [|x lines IH] using rev_ind; intros H; [done|].
  rewrite fold_left_app. simpl. unfold checkpoint_after at 1.
  destruct (is_record x) eqn:Hr; [done|].
  destruct (is_state x) eqn:Hs.
  - specialize (H lines x [] eq_refl Hs). by apply Exists_nil in H.
  - apply IH. intros pre l post -> Hl.
    specialize (H pre l (post ++ [x])). rewrite <- app_assoc in H.
    specialize (H eq_refl Hl). apply Exists_app in H as [H|H]; [done|].
    apply Exists_cons in H as [H|H]; [congruence|by apply Exists_nil in H].
Qed.

(** *** The claims about the dispatcher *)

(** C3.  A run that ends without error returns the value of the most
    recent [STATE] message that no [RECORD] message follows, and [None]
    when every [STATE] message is followed by a [RECORD] message (or there
    is none). *)
Theorem final_checkpoint_is_last_unconsumed_state filename lines fs w c :
  persist_lines filename delimiter quotechar lines fs = (w, Done c) ->
  (forall pre l post v,
      lines = pre ++ l :: post ->
      is_state l = true -> message_field "value" l = Some v ->
      Forall (fun l' => is_record l' = false /\ is_state l' = false) post ->
      c = v)
  /\ ((forall pre l post,
          lines = pre ++ l :: post -> is_state l = true ->
          Exists (fun l' => is_record l' = true) post) ->
      c = JNull).
Proof.
  intros [Hrun ->]%persist_lines_done.
  rewrite (for_lines_checkpoint _ _ _ Hrun). simpl. split.
  - intros pre l post v -> Hl Hv Hpost. by apply checkpoint_after_last_state.
  - apply checkpoint_after_consumed.
Qed.

(** C4 (as amended).  A [STATE] message without [value] is not tolerated:
    [o['value']] raises [KeyError] and the run stops there, the world left
    as the lines before it made it. *)
Theorem state_without_value_raises filename pre d post fs w c :
  persist_lines filename delimiter quotechar pre fs = (w, Done c) ->
  dict_get d "type" = Some (JStr "STATE") ->
  dict_get d "value" = None ->
  persist_lines filename delimiter quotechar
    (pre ++ Parsed (JObj d) :: post) fs
  = (w, Raise (KeyError "value")).
Proof.
  intros Hpre Ht Hv. eapply persist_lines_raise_after; [done|].
  rewrite (process_line_typed _ _ _ Ht). simpl.
  by rewrite handle_state_obj, Hv.
Qed.

(** C5 (as amended).  A [RECORD] of a stream that has no header yet, with
    a destination file that is not empty, is written against the row the
    first line of the file parses to, whatever the field names of the
    record, when that row is not empty; when it is empty, the record is
    written against the field names of its own flattened record.  Either
    way the header chosen becomes the header of the stream, no header row
    is written, and the row is appended to the file. *)
Theorem first_record_inherits_file_header d s schema record w path content row :
  dict_get d "type" = Some (JStr "RECORD") ->
  dict_get d "stream" = Some (JStr s) ->
  dict_get d "record" = Some (JObj record) ->
  is_Some (schemas w !! s) ->
  validators w !! s = Some schema ->
  validate schema (JObj record) = true ->
  headers w !! s = None ->
  path = default (s +:+ ".csv") (filename w) ->
  files w !! path = Some content ->
  content ≠ "" ->
  reader_next csv delimiter quotechar content = inr row ->
  let header := match row with [] => dict_keys (flatten record) | _ :: _ => row end in
  exists w',
    process_line (Parsed (JObj d)) w = (w', Done tt)
    /\ headers w' !! s = Some header
    /\ files w'
       = <[path := content +:+ writerow csv delimiter quotechar
                                 (dict_to_list header (flatten record))]> (files w).
Proof.
  intros Ht Hs Hrec [sch0 Hsch] Hval Hok Hhdr -> Hfile Hne Hrow header.
  rewrite (process_line_typed _ _ _ Ht). simpl.
  rewrite (handle_record_obj _ _ _ Hs), Hsch, Hval, Hrec, Hok.
  rewrite persist_record_obj. cbv zeta.
  set (path := default (s +:+ ".csv") (filename w)) in *.
  assert (file_is_empty (files w) path = false) as ->.
  { unfold file_is_empty. rewrite Hfile. by destruct (String.eqb_spec content ""). }
  set (w1 := match filename w with None => set_filename path w | Some _ => w end).
  assert (files w1 = files w /\ headers w1 = headers w) as [Hfs Hhs]
    by (subst w1; by destruct (filename w)).
  rewrite (choose_header_from_file s path (flatten record) w1 content row)
    by (by rewrite ?Hhs, ?Hfs).
  fold header. cbn [files set_header]. rewrite Hfs, Hfile.
  eexists. split; [done|]. cbn -[flatten header_row dict_to_list].
  rewrite lookup_insert_eq. split; [done|].
  unfold Dispatcher.written_text. cbn [default].
  by rewrite Hfs, Hfile.
Qed.

(** C7.  A [RECORD] message for a stream that no earlier [SCHEMA] message
    of the run named raises the protocol error, and the world (the files
    with it) is as the lines before it left it: nothing is written. *)
Theorem record_before_schema_fails filename pre d post fs w c s :
  persist_lines filename delimiter quotechar pre fs = (w, Done c) ->
  Forall (fun l => is_schema_for s l = false) pre ->
  dict_get d "type" = Some (JStr "RECORD") ->
  dict_get d "stream" = Some (JStr s) ->
  persist_lines filename delimiter quotechar
    (pre ++ Parsed (JObj d) :: post) fs
  = (w, Raise (ProtocolError (RecordBeforeSchema (JStr s)))).
Proof.
  intros Hpre Hno Ht Hs. eapply persist_lines_raise_after; [done|].
  apply persist_lines_done in Hpre as [Hpre _].
  pose proof (for_lines_schemas _ _ _ _ s Hpre Hno) as Hnone. simpl in Hnone.
  rewrite (process_line_typed _ _ _ Ht). simpl.
  rewrite (handle_record_obj _ _ _ Hs), Hnone. by rewrite lookup_empty.
Qed.

(** C9.  A [RECORD] message that names a stream with a registered schema
    and has no [record] field raises [KeyError], not one of the protocol
    errors, and nothing is written. *)
Theorem record_without_payload_raises_key_error filename pre d post fs w c s :
  persist_lines filename delimiter quotechar pre fs = (w, Done c) ->
  dict_get d "type" = Some (JStr "RECORD") ->
  dict_get d "stream" = Some (JStr s) ->
  is_Some (schemas w !! s) ->
  dict_get d "record" = None ->
  persist_lines filename delimiter quotechar
    (pre ++ Parsed (JObj d) :: post) fs
  = (w, Raise (KeyError "record")).
Proof.
  intros Hpre Ht Hs [schema Hsch] Hrec. eapply persist_lines_raise_after; [done|].
  apply persist_lines_done in Hpre as [Hpre _].
  destruct (for_lines_validators _ _ _ Hpre (initial_world_validators _ _) s)
    as [[v Hv]|Hnone]; [|congruence].
  rewrite (process_line_typed _ _ _ Ht). simpl.
  by rewrite (handle_record_obj _ _ _ Hs), Hsch, Hv, Hrec.
Qed.

(** A [SCHEMA] message whose schema the constructor of the validator
    refuses fails the run at line 99 with the exception of the
    constructor: the schema is registered, the validator is not, whether
    or not the message has [key_properties]. *)
Lemma schema_refused_by_constructor filename pre d post fs w c s schema e :
  persist_lines filename delimiter quotechar pre fs = (w, Done c) ->
  dict_get d "type" = Some (JStr "SCHEMA") ->
  dict_get d "stream" = Some (JStr s) ->
  dict_get d "schema" = Some schema ->
  construct schema = Some e ->
  exists w',
    persist_lines filename delimiter quotechar
      (pre ++ Parsed (JObj d) :: post) fs
    = (w', Raise e)
    /\ schemas w' = <[s := schema]> (schemas w)
    /\ validators w' = validators w
    /\ key_properties w' = key_properties w
    /\ files w' = files w.
Proof.
  intros Hpre Ht Hs Hsch He. eexists. split.
  - eapply persist_lines_raise_after; [done|].
    rewrite (process_line_typed _ _ _ Ht). simpl.
    by rewrite (handle_schema_obj _ _ _ Hs), Hsch, He.
  - done.
Qed.

(** C10.  A [SCHEMA] message with [stream], with a [schema] from which
    the validator is built, and without [key_properties] fails the run
    after the schema and the validator of the stream have been
    registered. *)
Theorem schema_without_key_properties_registers_then_fails
    filename pre d post fs w c s schema :
  persist_lines filename delimiter quotechar pre fs = (w, Done c) ->
  dict_get d "type" = Some (JStr "SCHEMA") ->
  dict_get d "stream" = Some (JStr s) ->
  dict_get d "schema" = Some schema ->
  construct schema = None ->
  dict_get d "key_properties" = None ->
  exists w',
    persist_lines filename delimiter quotechar
      (pre ++ Parsed (JObj d) :: post) fs
    = (w', Raise (ProtocolError KeyPropertiesRequired))
    /\ schemas w' = <[s := schema]> (schemas w)
    /\ validators w' = <[s := schema]> (validators w)
    /\ key_properties w' = key_properties w
    /\ files w' = files w.
Proof.
  intros Hpre Ht Hs Hsch Hbuilt Hkp. eexists. split.
  - eapply persist_lines_raise_after; [done|].
    rewrite (process_line_typed _ _ _ Ht). simpl.
    by rewrite (handle_schema_obj _ _ _ Hs), Hsch, Hbuilt, Hkp.
  - done.
Qed.

End Run.

(** *** Example runs *)

(** The runs below use the [csv] model, the permissive validator, the
    default delimiter and quote character, and no output file override
    unless said otherwise. *)
#[local] Abbreviation run :=
  (persist_lines permissive py_csv builds_from_objects creates_any_file None "," dquote).

(** C1 (code defect).  Input: no override; [SCHEMA] for streams [a] and
    [b], then a [RECORD] for [a] and a [RECORD] for [b].  The name computed
    for the first record stays in [filename], so the row of stream [b] is
    appended to [a.csv], and [b.csv] is never created. *)
Theorem second_stream_lands_in_first_file :
  let lines := [schema_msg "a"; schema_msg "b";
                record_msg "a" [("x", JInt 1)]; record_msg "b" [("x", JInt 2)]] in
  let w := fst (run lines ∅) in
  snd (run lines ∅) = Done JNull
  /\ filename w = Some "a.csv"
  /\ files w !! "a.csv" = Some ("x" +:+ CRLF +:+ "1" +:+ CRLF +:+ "2" +:+ CRLF)
  /\ files w !! "b.csv" = None.
Proof. vm_compute. done. Qed.

(** C2 (code defect).  Input: a new file; [SCHEMA] for [s], then the
    records [{"a": 1}] and [{"b": 2}].  The second record replaces the
    header of [s] by its own field names and its row is written against
    them: [2], where the header of the first record gives an empty field. *)
Theorem header_rederived_from_later_record :
  let lines := [schema_msg "s"; record_msg "s" [("a", JInt 1)];
                record_msg "s" [("b", JInt 2)]] in
  let w := fst (run lines ∅) in
  snd (run lines ∅) = Done JNull
  /\ headers w !! "s" = Some ["b"]
  /\ files w !! "s.csv" = Some ("a" +:+ CRLF +:+ "1" +:+ CRLF +:+ "2" +:+ CRLF)
  /\ writerow py_csv "," dquote (dict_to_list ["a"] (flatten [("b", JInt 2)]))
     = String dquote (String dquote CRLF).
Proof. vm_compute. done. Qed.

Lemma final_checkpoint_is_last_unconsumed_state_witness :
  let after_record := [schema_msg "s"; record_msg "s" [("a", JInt 1)]; state_msg (JInt 5)] in
  let before_record := [schema_msg "s"; state_msg (JInt 5); record_msg "s" [("a", JInt 1)]] in
  (exists w c, run after_record ∅ = (w, Done c) /\ c = JInt 5)
  /\ (exists w c, run before_record ∅ = (w, Done c) /\ c = JNull).
Proof.
  intros after_record before_record. split.
  - exists (fst (run after_record ∅)), (JInt 5).
    assert (run after_record ∅ = (fst (run after_record ∅), Done (JInt 5))) as H
      by (vm_compute; reflexivity).
    split; [exact H|].
    refine (proj1 (final_checkpoint_is_last_unconsumed_state _ _ _ _ _ _ _ _ _ _ _ H)
              [schema_msg "s"; record_msg "s" [("a", JInt 1)]] (state_msg (JInt 5)) []
              (JInt 5) eq_refl eq_refl eq_refl _).
    constructor.
  - exists (fst (run before_record ∅)), JNull.
    assert (run before_record ∅ = (fst (run before_record ∅), Done JNull)) as H
      by (vm_compute; reflexivity).
    split; [exact H|].
    apply (proj2 (final_checkpoint_is_last_unconsumed_state _ _ _ _ _ _ _ _ _ _ _ H)).
    intros [|l1 [|l2 [|l3 pre]]] l post Heq Hl; simpl in Heq; simplify_eq;
      try discriminate Hl.
    + by repeat constructor.
    + by destruct pre.
Defined.

(** C4 as stated fails: a [STATE] message without [value] aborts the run. *)
Lemma state_without_value_counterexample :
  let lines := [Parsed (JObj [("type", JStr "STATE")])] in
  run lines ∅ = (initial_world None ∅, Raise (KeyError "value"))
  /\ ~ exists w c, run lines ∅ = (w, Done c).
Proof.
  intros lines.
  assert (run lines ∅ = (initial_world None ∅, Raise (KeyError "value"))) as H
    by (vm_compute; reflexivity).
  split; [exact H|]. intros (w & c & H'). rewrite H in H'. discriminate.
Qed.

Lemma state_without_value_raises_witness :
  let pre := [schema_msg "s"; record_msg "s" [("a", JInt 1)]] in
  let w := fst (run pre ∅) in
  run pre ∅ = (w, Done JNull)
  /\ run (pre ++ [Parsed (JObj [("type", JStr "STATE")]); state_msg (JInt 5)]) ∅
     = (w, Raise (KeyError "value")).
Proof.
  intros pre w.
  assert (run pre ∅ = (w, Done JNull)) as H by (vm_compute; reflexivity).
  split; [exact H|].
  exact (state_without_value_raises permissive py_csv "," dquote
            builds_from_objects creates_any_file None pre
           [("type", JStr "STATE")] [state_msg (JInt 5)] ∅ w JNull H eq_refl eq_refl).
Defined.

(** C5 as stated fails: the file is not empty and its first line parses to
    the empty row; the record is written against its own field names, not
    against that row. *)
Lemma blank_first_line_counterexample :
  let content := String LF ("old" +:+ String LF "") in
  let fs : gmap string string := {["s.csv" := content]} in
  let lines := [schema_msg "s"; record_msg "s" [("a", JInt 1)]] in
  let w := fst (run lines fs) in
  snd (run lines fs) = Done JNull
  /\ reader_next py_csv "," dquote content = inr []
  /\ headers w !! "s" = Some ["a"]
  /\ files w !! "s.csv" = Some (content +:+ "1" +:+ CRLF)
  /\ files w !! "s.csv"
     ≠ Some (content +:+ writerow py_csv "," dquote
                           (dict_to_list [] (flatten [("a", JInt 1)]))).
Proof. vm_compute. split_and!; done. Qed.

Lemma first_record_inherits_file_header_witness :
  let record := [("a", JInt 1); ("b,x", JInt 2)] in
  let message :=
    [("type", JStr "RECORD"); ("stream", JStr "s"); ("record", JObj record)] in
  let quoted := String dquote ("b,x" +:+ String dquote "") in
  let content := quoted +:+ ",c" +:+ CRLF +:+ "3,4" +:+ CRLF in
  let w := fst (run [schema_msg "s"] {["s.csv" := content]}) in
  let blank := String LF ("old" +:+ String LF "") in
  let w0 := fst (run [schema_msg "s"] {["s.csv" := blank]}) in
  (reader_next py_csv "," dquote content = inr ["b,x"; "c"]
   /\ exists w',
        process_line permissive py_csv "," dquote builds_from_objects creates_any_file
          (Parsed (JObj message)) w = (w', Done tt)
        /\ headers w' !! "s" = Some ["b,x"; "c"]
        /\ files w'
           = <[ "s.csv" := content +:+ writerow py_csv "," dquote [JInt 2; JStr ""] ]>
               (files w))
  /\ (reader_next py_csv "," dquote blank = inr []
      /\ exists w',
           process_line permissive py_csv "," dquote builds_from_objects creates_any_file
             (Parsed (JObj message)) w0 = (w', Done tt)
           /\ headers w' !! "s" = Some ["a"; "b,x"]
           /\ files w'
              = <[ "s.csv" := blank +:+ writerow py_csv "," dquote [JInt 1; JInt 2] ]>
                  (files w0)).
Proof.
  intros record message quoted content w blank w0.
  assert (reader_next py_csv "," dquote content = inr ["b,x"; "c"]) as Hrow
    by (vm_compute; reflexivity).
  assert (reader_next py_csv "," dquote blank = inr []) as Hblank
    by (vm_compute; reflexivity).
  split; (split; [eassumption|]).
  - refine (first_record_inherits_file_header permissive py_csv "," dquote
              builds_from_objects creates_any_file
              message "s" (JObj []) record w "s.csv" content ["b,x"; "c"]
              eq_refl eq_refl eq_refl _ _ eq_refl _ eq_refl _ _ Hrow).
    + exists (JObj []). vm_compute. reflexivity.
    + vm_compute. reflexivity.
    + vm_compute. reflexivity.
    + vm_compute. reflexivity.
    + discriminate.
  - refine (first_record_inherits_file_header permissive py_csv "," dquote
              builds_from_objects creates_any_file
              message "s" (JObj []) record w0 "s.csv" blank []
              eq_refl eq_refl eq_refl _ _ eq_refl _ eq_refl _ _ Hblank).
    + exists (JObj []). vm_compute. reflexivity.
    + vm_compute. reflexivity.
    + vm_compute. reflexivity.
    + vm_compute. reflexivity.
    + discriminate.
Defined.

Lemma record_before_schema_fails_witness :
  let pre := [schema_msg "a"; state_msg (JInt 1)] in
  let w := fst (run pre ∅) in
  run pre ∅ = (w, Done (JInt 1))
  /\ Forall (fun l => is_schema_for "b" l = false) pre
  /\ run (pre ++ [record_msg "b" [("x", JInt 1)]; state_msg (JInt 2)]) ∅
     = (w, Raise (ProtocolError (RecordBeforeSchema (JStr "b"))))
  /\ files w = ∅.
Proof.
  intros pre w.
  assert (run pre ∅ = (w, Done (JInt 1))) as H by (vm_compute; reflexivity).
  assert (Forall (fun l => is_schema_for "b" l = false) pre) as Hpre
    by (repeat constructor).
  split_and!; [exact H|exact Hpre| |vm_compute; reflexivity].
  exact (record_before_schema_fails permissive py_csv "," dquote
            builds_from_objects creates_any_file None pre
           [("type", JStr "RECORD"); ("stream", JStr "b"); ("record", JObj [("x", JInt 1)])]
           [state_msg (JInt 2)] ∅ w (JInt 1) "b" H Hpre eq_refl eq_refl).
Defined.

Lemma record_without_payload_raises_key_error_witness :
  let pre := [schema_msg "s"] in
  let w := fst (run pre ∅) in
  run pre ∅ = (w, Done JNull)
  /\ is_Some (schemas w !! "s")
  /\ run (pre ++ [Parsed (JObj [("type", JStr "RECORD"); ("stream", JStr "s")])]) ∅
     = (w, Raise (KeyError "record")).
Proof.
  intros pre w.
  assert (run pre ∅ = (w, Done JNull)) as H by (vm_compute; reflexivity).
  assert (is_Some (schemas w !! "s")) as Hs by (exists (JObj []); vm_compute; reflexivity).
  split_and!; [exact H|exact Hs|].
  exact (record_without_payload_raises_key_error permissive py_csv "," dquote
            builds_from_objects creates_any_file None pre
           [("type", JStr "RECORD"); ("stream", JStr "s")] [] ∅ w JNull "s"
           H eq_refl eq_refl Hs eq_refl).
Defined.

(** With a constructor that asks the schema for its [id], the schema [5]
    is registered and the run fails at line 99, before a validator is. *)
Example schema_that_is_a_number_is_refused :
  let d := [("type", JStr "SCHEMA"); ("stream", JStr "s"); ("schema", JInt 5);
            ("key_properties", JArr [])] in
  let w := fst (run [Parsed (JObj d)] ∅) in
  snd (run [Parsed (JObj d)] ∅) = Raise AttributeError
  /\ schemas w !! "s" = Some (JInt 5)
  /\ validators w !! "s" = None.
Proof. vm_compute. done. Qed.

Lemma schema_without_key_properties_registers_then_fails_witness :
  let d := [("type", JStr "SCHEMA"); ("stream", JStr "s"); ("schema", JObj [])] in
  run [] ∅ = (initial_world None ∅, Done JNull)
  /\ exists w',
       run ([] ++ [Parsed (JObj d)]) ∅ = (w', Raise (ProtocolError KeyPropertiesRequired))
       /\ schemas w' = <["s" := JObj []]> ∅
       /\ validators w' = <["s" := JObj []]> ∅
       /\ key_properties w' = ∅
       /\ files w' = ∅.
Proof.
  intros d.
  assert (run [] ∅ = (initial_world None ∅, Done JNull)) as H by reflexivity.
  split; [exact H|].
  exact (schema_without_key_properties_registers_then_fails permissive py_csv "," dquote
            builds_from_objects creates_any_file
           None [] d [] ∅ (initial_world None ∅) JNull "s" (JObj [])
           H eq_refl eq_refl eq_refl eq_refl eq_refl).
Defined.

End DispatcherProps.

(** ** More about the flattener *)

Module FlattenMore.
Import Py Flatten Main.

(** X9.  What [flatten] returns is a flat dictionary: its keys are
    pairwise distinct and none of its values is an object or a list. *)
Theorem flatten_result_is_flat (d : dict json) :
  NoDup (dict_keys (flatten d)) /\ scalar_valued (flatten d).
Proof.
  split.
  - rewrite FlattenProps.flatten_unfold. apply FlattenProps.dict_of_items_keys_nodup.
  - apply FlattenProps.flatten_json_scalar_valued.
Qed.

(** X11.  A field that is not an object, added at the end of an object,
    sets its own key in the flattened result: to the value itself, or to
    the string representation of a list.  It replaces the entry that an
    earlier field may have produced under the same key. *)
Theorem flatten_last_field_sets_its_key (d : dict json) (k : string) (v : json) :
  is_object v = false ->
  flatten (d ++ [(k, v)]) = dict_set (flatten d) k (stored_value v)
  /\ dict_get (flatten (d ++ [(k, v)])) k = Some (stored_value v).
Proof.
  intros Hv.
  assert (flatten (d ++ [(k, v)]) = dict_set (flatten d) k (stored_value v)) as ->.
  { rewrite !FlattenProps.flatten_unfold, flat_map_app. unfold dict_of_items.
    rewrite fold_left_app. simpl. rewrite app_nil_r.
    unfold flatten_items, stored_value; cbn [fst snd].
    change (truthy "") with false. cbn iota.
    by destruct v. }
  split; [done|].
  induction (flatten d) as [|[k0 v0] f IH]; simpl.
  - unfold dict_get. simpl. by rewrite String.eqb_refl.
  - destruct (String.eqb_spec k0 k) as [->|Hne].
    + unfold dict_get. simpl. by rewrite String.eqb_refl.
    + unfold dict_get in *. simpl. by destruct (String.eqb_spec k0 k).
Qed.

Lemma flatten_last_field_sets_its_key_witness :
  let d := [("a", JObj [("b", JInt 1)]); ("c", JInt 2)] in
  flatten (d ++ [("a__b", JArr [JInt 7])])
  = [("a__b", JStr "[7]"); ("c", JInt 2)]
  /\ dict_get (flatten (d ++ [("a__b", JArr [JInt 7])])) "a__b" = Some (JStr "[7]").
Proof.
  intros d.
  exact (flatten_last_field_sets_its_key d "a__b" (JArr [JInt 7]) eq_refl).
Defined.

End FlattenMore.

(** ** More about the dispatcher: what a run does to the files *)

Module DispatcherFiles.
Import Py Flatten Csv Dispatcher Main.

Section Run.

Variable validate : json -> json -> bool.
Variable csv : csv_module.
Variables delimiter quotechar : ascii.
Variable construct : json -> option exn.
Variable create_error : string -> option exn.

#[local] Abbreviation process_line :=
  (process_line validate csv delimiter quotechar construct create_error).
#[local] Abbreviation handle_record :=
  (handle_record validate csv delimiter quotechar create_error).
#[local] Abbreviation handle_schema := (handle_schema construct).
#[local] Abbreviation for_lines :=
  (for_lines validate csv delimiter quotechar construct create_error).
#[local] Abbreviation persist_record := (persist_record csv delimiter quotechar create_error).
#[local] Abbreviation open_append := (open_append create_error).
#[local] Abbreviation choose_header := (choose_header csv delimiter quotechar).
#[local] Abbreviation written_text := (written_text csv delimiter quotechar).
#[local] Abbreviation persist_lines := (persist_lines validate csv construct create_error).

Lemma app_empty_r (s : string) : s +:+ "" = s.
Proof. induction s as [|c s IH]; [done|]. change (String c (s +:+ "") = String c s). by f_equal. Qed.

Lemma files_step_refl w : files_step w w.
Proof.
  split; [by left|done|]. intros q c H. exists "". by rewrite app_empty_r.
Qed.

Lemma files_step_same w w' :
  filename w' = filename w -> files w' = files w -> files_step w w'.
Proof.
  intros Hf Hfs. split; [by left|by rewrite Hfs|].
  intros q c H. exists "". by rewrite Hfs, app_empty_r.
Qed.

Lemma files_step_trans w1 w2 w3 :
  files_step w1 w2 -> files_step w2 w3 -> files_step w1 w3.
Proof.
  intros [Hf1 He1 Ha1] [Hf2 He2 Ha2]. split.
  - destruct Hf1 as [Hf1|Hf1]; [|by right].
    destruct Hf2 as [Hf2|Hf2]; [left; congruence|right; congruence].
  - intros q Hq. rewrite He2 by done. apply He1.
    destruct Hf2 as [Hf2|Hf2]; congruence.
  - intros q c Hc. destruct (Ha1 q c Hc) as [t1 H1]. destruct (Ha2 q _ H1) as [t2 H2].
    exists (t1 +:+ t2). by rewrite H2, FlattenProps.string_app_assoc.
Qed.

(** The header is chosen without writing. *)
Lemma choose_header_files s path is_empty flat w w' r :
  choose_header s path is_empty flat w = (w', r) ->
  filename w' = filename w /\ files w' = files w.
Proof.
  unfold Dispatcher.choose_header, lift, bind, gets, modify, raise, ret.
  intros H. repeat (case_match; simplify_eq/=; try done).
Qed.

(** A record either is appended to the file [filename] names, or fails
    and leaves the files as they were. *)
Lemma persist_record_files s record w w' r :
  persist_record s record w = (w', r) ->
  let path := default (s +:+ ".csv") (filename w) in
  filename w' = Some path
  /\ ((r = Done tt /\ exists text,
         files w' = <[path := default "" (files w !! path) +:+ text]> (files w))
      \/ (r ≠ Done tt /\ files w' = files w)).
Proof.
  destruct record as [| | | | | |members].
  1-6: unfold Dispatcher.persist_record, resolve_filename, bind, gets, modify, ret, raise;
    destruct (filename w) as [f|] eqn:Ef; cbn;
    intros [= <- <-]; (split; [done|right; done]).
  rewrite DispatcherProps.persist_record_obj. cbv zeta.
  set (path := default (s +:+ ".csv") (filename w)).
  set (w1 := match filename w with None => set_filename path w | Some _ => w end).
  assert (filename w1 = Some path /\ files w1 = files w) as [Hf1 Hfs1]
    by (subst w1 path; by destruct (filename w) eqn:Ef).
  destruct (choose_header _ _ _ _ _) as [w2 r2] eqn:Hch.
  apply choose_header_files in Hch as [Hf2 Hfs2].
  rewrite Hf1 in Hf2. rewrite Hfs1 in Hfs2.
  destruct r2 as [[]| |]; [|intros [= <- <-]; split; [done|right; done]..].
  rewrite Hfs2.
  destruct (files w !! path) as [content|] eqn:Hc;
    [|destruct (create_error path); [intros [= <- <-]; split; [done|right; done]|]];
    intros [= <- <-]; cbn; rewrite Hf2, Hfs2, Hc;
    (split; [done|left; split; [done|eauto]]).
Qed.

Lemma persist_record_files_step s record w w' r :
  persist_record s record w = (w', r) ->
  files_step w w' /\ (r ≠ Done tt -> files w' = files w).
Proof.
  intros H. apply persist_record_files in H as [Hf Hfs]. cbv zeta in *. split.
  - split.
    + destruct (filename w); [left|by right]. by rewrite Hf.
    + intros q Hq. destruct Hfs as [[_ [text ->]]|[_ ->]]; [|done].
      rewrite lookup_insert_ne; [done|]. congruence.
    + intros q c Hc. destruct Hfs as [[_ [text ->]]|[_ ->]].
      * destruct (decide (default (s +:+ ".csv") (filename w) = q)) as [<-|Hne].
        -- rewrite lookup_insert_eq, Hc. eauto.
        -- rewrite lookup_insert_ne by done. exists "". by rewrite app_empty_r.
      * exists "". by rewrite app_empty_r.
  - intros Hr. by destruct Hfs as [[? _]|[_ ?]].
Qed.

(** The [RECORD] branch stops before [persist_record] with the world
    untouched, or is [persist_record]. *)
Lemma handle_record_reaches o w w' r :
  handle_record o w = (w', r) ->
  (w' = w /\ r ≠ Done tt) \/ exists s record, persist_record s record w = (w', r).
Proof.
  unfold Dispatcher.handle_record, py_in, py_getitem, dict_contains, bind, gets, raise, ret.
  intros H. repeat (case_match; simplify_eq/=; eauto).
Qed.

Lemma process_line_files l w w' r :
  process_line l w = (w', r) ->
  files_step w w'
  /\ (r ≠ Done tt -> files w' = files w)
  /\ (is_record l = false -> files w' = files w /\ filename w' = filename w).
Proof.
  intros H.
  destruct (DispatcherProps.process_line_cases validate csv delimiter quotechar
              construct create_error l w)
    as [[_ [e He]]|(d & t & -> & Ht & [(Hr & Hl)|[(_ & _ & Hl)|[(_ & _ & _ & Hl)|(_ & _ & _ & Hl)]]])];
    rewrite H in *; simplify_eq.
  - split_and!; [apply files_step_refl|done|done].
  - symmetry in Hl. rewrite Hr.
    apply handle_record_reaches in Hl as [[-> ?]|(s & record & Hl)].
    + split_and!; [apply files_step_refl|done|done].
    + apply persist_record_files_step in Hl as [? ?]. done.
  - symmetry in Hl.
    assert (filename w' = filename w /\ files w' = files w) as [Hf Hfs].
    { revert Hl. unfold handle_state, py_getitem, bind, modify, raise, ret.
      intros Hl. repeat (case_match; simplify_eq/=; try done). }
    split_and!; [by apply files_step_same|done|done].
  - symmetry in Hl.
    assert (filename w' = filename w /\ files w' = files w) as [Hf Hfs].
    { revert Hl.
      unfold handle_schema, py_in, py_getitem, stream_key, dict_contains,
        bind, modify, out_of_model, raise, ret.
      intros Hl. repeat (case_match; simplify_eq/=; try done). }
    split_and!; [by apply files_step_same|done|done].
  - split_and!; [apply files_step_refl|done|done].
Qed.

Lemma for_lines_files lines w w' r :
  for_lines lines w = (w', r) -> files_step w w'.
Proof.
  revert w. induction lines as [|l lines IH]; intros w; simpl.
  - intros [= <- _]. apply files_step_refl.
  - unfold bind. destruct (process_line l w) as [w1 r1] eqn:H1.
    apply process_line_files in H1 as [H1 _].
    destruct r1 as [[]| |]; [|by intros [= <- _]..].
    intros H. eapply files_step_trans; [done|by eapply IH].
Qed.

Lemma for_lines_no_record lines w w' r :
  Forall (fun l => is_record l = false) lines ->
  for_lines lines w = (w', r) ->
  files w' = files w /\ filename w' = filename w.
Proof.
  intros Hno. revert w. induction Hno as [|l lines Hl _ IH]; intros w; simpl.
  - by intros [= <- _].
  - unfold bind. destruct (process_line l w) as [w1 r1] eqn:H1.
    apply process_line_files in H1 as (_ & _ & H1). destruct (H1 Hl) as [Hfs Hf].
    destruct r1 as [[]| |]; [|by intros [= <- _]..].
    intros H. apply IH in H as [-> ->]. done.
Qed.


Lemma persist_lines_for_lines filename lines fs w r :
  persist_lines filename delimiter quotechar lines fs = (w, r) ->
  exists r', for_lines lines (initial_world filename fs) = (w, r')
             /\ match r' with
                | Done _ => r = Done (state w)
                | Raise e => r = Raise e
                | OutOfModel => r = OutOfModel
                end.
Proof.
  unfold Dispatcher.persist_lines, bind, gets.
  destruct (Dispatcher.for_lines _ _ _ _ _ _) as [w1 [[]| |]]; intros [= <- <-];
    (eexists; split; [reflexivity|]); reflexivity.
Qed.

(** *** Properties of whole runs *)

(** X1.  A run only appends: whatever the outcome, every file that
    existed is still there and its old content is the beginning of the
    new one. *)
Theorem run_only_appends filename lines fs w r :
  persist_lines filename delimiter quotechar lines fs = (w, r) ->
  forall path content,
    fs !! path = Some content ->
    exists appended, files w !! path = Some (content +:+ appended).
Proof.
  intros (r' & H & _)%persist_lines_for_lines path content Hc.
  apply for_lines_files in H as [_ _ Happ]. by apply Happ.
Qed.

(** X2.  A run writes to one file at most: an output file given to
    [persist_lines] stays the value of [filename], and every file other
    than the one [filename] names at the end is as it was.  Without an
    override the name is the one computed for the first record written. *)
Theorem run_touches_one_file filename lines fs w r :
  persist_lines filename delimiter quotechar lines fs = (w, r) ->
  (forall f, filename = Some f -> Dispatcher.filename w = Some f)
  /\ (forall path, Dispatcher.filename w ≠ Some path -> files w !! path = fs !! path).
Proof.
  intros (r' & H & _)%persist_lines_for_lines.
  apply for_lines_files in H as [Hf Hother _]. simpl in *. split.
  - intros f ->. by destruct Hf as [->|?].
  - done.
Qed.


(** X4.  [SCHEMA] and [STATE] messages never touch the files: a run
    without [RECORD] messages leaves the file system as it was, whatever
    its outcome. *)
Theorem run_without_record_writes_nothing filename lines fs w r :
  persist_lines filename delimiter quotechar lines fs = (w, r) ->
  Forall (fun l => is_record l = false) lines ->
  files w = fs.
Proof.
  intros (r' & H & _)%persist_lines_for_lines Hno.
  by apply (for_lines_no_record _ _ _ _ Hno) in H as [-> _].
Qed.

(** *** Schemas and validation *)

Lemma handle_schema_done o w w' :
  handle_schema o w = (w', Done tt) ->
  exists d s schema kp,
    o = JObj d /\ dict_get d "stream" = Some (JStr s)
    /\ dict_get d "schema" = Some schema
    /\ w' = set_key_properties s kp (set_validator s schema (set_schema s schema w)).
Proof.
  unfold handle_schema, py_in, py_getitem, stream_key, dict_contains,
    bind, modify, out_of_model, raise, ret.
  intros H. repeat (case_match; simplify_eq/=; try done). eauto 10.
Qed.

Lemma typed_not_schema l name :
  has_type name l = true -> name ≠ "SCHEMA" -> has_type "SCHEMA" l = false.
Proof.
  unfold has_type. destruct (message_type l) as [t|]; [|done].
  intros ->%DispatcherProps.is_str_spec Hne. simpl.
  by destruct (String.eqb_spec name "SCHEMA").
Qed.

(** After a line that completes, the schema and the validator of a stream
    are those of the line when it is a [SCHEMA] message for the stream,
    and unchanged otherwise. *)
Lemma process_line_registers l w w' s :
  process_line l w = (w', Done tt) ->
  schemas w' !! s
  = (if is_schema_for s l then message_field "schema" l else schemas w !! s)
  /\ validators w' !! s
     = (if is_schema_for s l then message_field "schema" l else validators w !! s).
Proof.
  intros H.
  destruct (DispatcherProps.process_line_cases validate csv delimiter quotechar
              construct create_error l w)
    as [[_ [e He]]|(d & t & -> & Ht & [(Hr & Hl)|[(_ & Hst & Hl)|[(_ & _ & Hsch & Hl)|(_ & _ & _ & Hl)]]])];
    rewrite H in *; simplify_eq.
  - symmetry in Hl. apply DispatcherProps.handle_record_effect in Hl as (-> & -> & _).
    unfold is_schema_for. rewrite (typed_not_schema _ "RECORD" Hr) by done. by simpl.
  - symmetry in Hl. apply DispatcherProps.handle_state_effect in Hl as (-> & -> & _).
    unfold is_schema_for. rewrite (typed_not_schema _ "STATE" Hst) by done. by simpl.
  - symmetry in Hl.
    apply handle_schema_done in Hl as (d' & s' & schema & kp & [= <-] & Hs & Hschema & ->).
    unfold is_schema_for. rewrite Hsch. simpl. rewrite Hs, Hschema. simpl.
    destruct (String.eqb_spec s' s) as [->|Hne].
    + by rewrite !lookup_insert_eq.
    + by rewrite !lookup_insert_ne.
Qed.

Lemma for_lines_registers lines w w' s :
  for_lines lines w = (w', Done tt) ->
  schemas w' !! s
  = fold_left (fun acc l => if is_schema_for s l then message_field "schema" l else acc)
      lines (schemas w !! s)
  /\ validators w' !! s
     = fold_left (fun acc l => if is_schema_for s l then message_field "schema" l else acc)
         lines (validators w !! s).
Proof.
  revert w. induction lines as [|l lines IH]; intros w; simpl.
  - by intros [= <-].
  - unfold bind. destruct (process_line l w) as [w1 [[]| |]] eqn:H1; try done.
    intros H. destruct (process_line_registers _ _ _ s H1) as [<- <-]. by apply IH.
Qed.

Lemma for_lines_registered filename lines fs w s :
  for_lines lines (initial_world filename fs) = (w, Done tt) ->
  schemas w !! s = registered_schema s lines
  /\ validators w !! s = registered_schema s lines.
Proof. intros H. by apply (for_lines_registers _ _ _ s) in H. Qed.

(** X5.  After a run that completes, the schema registered for a stream
    and the schema its validator was built from are those of the last
    [SCHEMA] message for the stream: a later [SCHEMA] message replaces an
    earlier one, and a stream never named has neither. *)
Theorem last_schema_message_is_registered filename lines fs w c s :
  persist_lines filename delimiter quotechar lines fs = (w, Done c) ->
  schemas w !! s = registered_schema s lines
  /\ validators w !! s = registered_schema s lines.
Proof.
  intros [H _]%DispatcherProps.persist_lines_done.
  by apply (for_lines_registered _ _ _ _ s) in H.
Qed.

(** X6.  A [RECORD] whose payload the validator of the last [SCHEMA]
    message of its stream rejects aborts the run with [ValidationError];
    the variables and the files are as the lines before it left them: no
    row is written, no file is created. *)
Theorem invalid_record_fails_and_writes_nothing filename pre d post fs w c s schema record :
  persist_lines filename delimiter quotechar pre fs = (w, Done c) ->
  registered_schema s pre = Some schema ->
  dict_get d "type" = Some (JStr "RECORD") ->
  dict_get d "stream" = Some (JStr s) ->
  dict_get d "record" = Some record ->
  validate schema record = false ->
  persist_lines filename delimiter quotechar (pre ++ Parsed (JObj d) :: post) fs
  = (w, Raise ValidationError).
Proof.
  intros Hpre Hreg Ht Hs Hrec Hval.
  eapply DispatcherProps.persist_lines_raise_after; [done|].
  apply DispatcherProps.persist_lines_done in Hpre as [Hpre _].
  destruct (for_lines_registered _ _ _ _ s Hpre) as [Hsch Hv].
  rewrite Hreg in Hsch, Hv.
  rewrite (DispatcherProps.process_line_typed _ _ _ _ _ _ _ _ _ Ht). simpl.
  by rewrite (DispatcherProps.handle_record_obj _ _ _ _ _ _ _ _ Hs), Hsch, Hv, Hrec, Hval.
Qed.

(** X7.  A message whose [type] is none of [RECORD], [STATE] and [SCHEMA]
    (the comparison is exact) aborts the run with the unknown-type error
    and changes nothing. *)
Theorem unknown_message_type_fails filename pre d post fs w c t :
  persist_lines filename delimiter quotechar pre fs = (w, Done c) ->
  dict_get d "type" = Some t ->
  t ≠ JStr "RECORD" -> t ≠ JStr "STATE" -> t ≠ JStr "SCHEMA" ->
  persist_lines filename delimiter quotechar (pre ++ Parsed (JObj d) :: post) fs
  = (w, Raise (ProtocolError (UnknownMessageType t))).
Proof.
  intros Hpre Ht Hr Hst Hsch.
  eapply DispatcherProps.persist_lines_raise_after; [done|].
  rewrite (DispatcherProps.process_line_typed _ _ _ _ _ _ _ _ _ Ht).
  assert (forall name, t ≠ JStr name -> is_str t name = false) as Hno.
  { intros name Hne. destruct (is_str t name) eqn:E; [|done].
    by apply DispatcherProps.is_str_spec in E. }
  by rewrite !Hno.
Qed.

(** *** A record written to a new file *)

Lemma dict_get_cons_eq {V} (d : dict V) k v : dict_get ((k, v) :: d) k = Some v.
Proof. unfold dict_get. simpl. by rewrite String.eqb_refl. Qed.

Lemma dict_get_cons_ne {V} (d : dict V) k k' v :
  k ≠ k' -> dict_get ((k, v) :: d) k' = dict_get d k'.
Proof. intros Hne. unfold dict_get. simpl. by destruct (String.eqb_spec k k'). Qed.

Lemma dict_get_set {V} (d : dict V) k v k' :
  dict_get (dict_set d k v) k' = if decide (k = k') then Some v else dict_get d k'.
Proof.
  induction d as [|[k0 v0] d IH]; simpl.
  - case_decide as Hk; [subst; apply dict_get_cons_eq|by rewrite dict_get_cons_ne].
  - destruct (String.eqb_spec k0 k) as [->|Hne].
    + case_decide as Hk; [subst; apply dict_get_cons_eq|].
      by rewrite !dict_get_cons_ne.
    + destruct (decide (k0 = k')) as [->|Hne'].
      * rewrite !dict_get_cons_eq. by rewrite decide_False.
      * by rewrite !dict_get_cons_ne.
Qed.

(** [writeheader] writes the field names themselves. *)
Lemma header_row_names (fieldnames : list string) :
  header_row fieldnames = map JStr fieldnames.
Proof.
  unfold header_row, dict_to_list, dict_get_default, dict_of_items.
  assert (forall items acc k,
             k ∈ items ->
             dict_get (fold_left (fun d kv => dict_set d (fst kv) (snd kv))
                         (map (fun key => (key, JStr key)) items) acc) k
             = Some (JStr k)) as Hget.
  { assert (forall items acc k,
               dict_get acc k = Some (JStr k) ->
               dict_get (fold_left (fun d kv => dict_set d (fst kv) (snd kv))
                           (map (fun key => (key, JStr key)) items) acc) k
               = Some (JStr k)) as Hkeep.
    { induction items as [|k0 items IH]; intros acc k Hk; simpl; [done|].
      apply IH. rewrite dict_get_set. case_decide; by subst. }
    induction items as [|k0 items IH]; intros acc k Hk; simpl.
    - by apply elem_of_nil in Hk.
    - apply elem_of_cons in Hk as [->|Hk]; [|by apply IH].
      apply Hkeep. rewrite dict_get_set. by rewrite decide_True. }
  apply map_ext_in. intros k Hk%list_elem_of_In. by rewrite Hget.
Qed.

(** The row of a dictionary against its own keys is its values. *)
Lemma dict_to_list_own_keys (d : dict json) :
  NoDup (dict_keys d) -> dict_to_list (dict_keys d) d = map snd d.
Proof.
  unfold dict_to_list, dict_get_default, dict_keys.
  induction d as [|[k v] d IH]; simpl; [done|].
  intros [Hk Hd]%NoDup_cons. rewrite dict_get_cons_eq. f_equal.
  rewrite <- (IH Hd). apply map_ext_in. intros k' Hk'%list_elem_of_In.
  rewrite dict_get_cons_ne; [done|]. by intros ->.
Qed.

(** The opening succeeds when the file is there or can be created. *)
Lemma opened_or_created {A} path w (failed : exn -> A) (opened : A) :
  (files w !! path = None -> create_error path = None) ->
  match files w !! path, create_error path with
  | None, Some e => failed e
  | _, _ => opened
  end = opened.
Proof. intros Hopen. destruct (files w !! path); [done|]. by rewrite Hopen. Qed.

(** A validated [RECORD] whose destination file is missing and cannot be
    created fails with the exception of [open]: the name is kept in
    [filename], the header of the stream is set, and no file is created. *)
Lemma record_to_uncreatable_file_fails d s schema record w path e :
  dict_get d "type" = Some (JStr "RECORD") ->
  dict_get d "stream" = Some (JStr s) ->
  dict_get d "record" = Some (JObj record) ->
  is_Some (schemas w !! s) ->
  validators w !! s = Some schema ->
  validate schema (JObj record) = true ->
  path = default (s +:+ ".csv") (filename w) ->
  files w !! path = None ->
  create_error path = Some e ->
  exists w',
    process_line (Parsed (JObj d)) w = (w', Raise e)
    /\ filename w' = Some path
    /\ headers w' !! s = Some (dict_keys (flatten record))
    /\ files w' = files w.
Proof.
  intros Ht Hs Hrec [sch0 Hsch] Hval Hok -> Hnone Hfail.
  rewrite (DispatcherProps.process_line_typed _ _ _ _ _ _ _ _ _ Ht). simpl.
  rewrite (DispatcherProps.handle_record_obj _ _ _ _ _ _ _ _ Hs), Hsch, Hval, Hrec, Hok.
  rewrite DispatcherProps.persist_record_obj. cbv zeta.
  set (path := default (s +:+ ".csv") (filename w)) in *.
  assert (file_is_empty (files w) path = true) as -> by (unfold file_is_empty; by rewrite Hnone).
  set (w1 := match filename w with None => set_filename path w | Some _ => w end).
  assert (files w1 = files w /\ filename w1 = Some path) as [Hfs Hf]
    by (subst w1 path; by destruct (filename w) eqn:Ef).
  assert (choose_header s path true (flatten record) w1
          = (set_header s (dict_keys (flatten record)) w1, Done tt)) as ->.
  { unfold Dispatcher.choose_header, bind, gets, modify. by destruct (headers w1 !! s). }
  cbn [files set_header]. rewrite Hfs, Hnone, Hfail.
  eexists. split; [done|]. cbn -[flatten]. by rewrite lookup_insert_eq.
Qed.

(** X8.  A validated [RECORD] whose destination file is missing or empty,
    and can be created when it is missing, leaves it with two rows: the
    field names of the flattened record, in their order, and the values,
    in the same order. *)
Theorem record_to_new_file_writes_header_and_row d s schema record w path :
  dict_get d "type" = Some (JStr "RECORD") ->
  dict_get d "stream" = Some (JStr s) ->
  dict_get d "record" = Some (JObj record) ->
  is_Some (schemas w !! s) ->
  validators w !! s = Some schema ->
  validate schema (JObj record) = true ->
  path = default (s +:+ ".csv") (filename w) ->
  file_is_empty (files w) path = true ->
  (files w !! path = None -> create_error path = None) ->
  exists w',
    process_line (Parsed (JObj d)) w = (w', Done tt)
    /\ headers w' !! s = Some (dict_keys (flatten record))
    /\ files w'
       = <[path := writerow csv delimiter quotechar (map JStr (dict_keys (flatten record)))
                   +:+ writerow csv delimiter quotechar (map snd (flatten record))]>
           (files w).
Proof.
  intros Ht Hs Hrec [sch0 Hsch] Hval Hok -> Hemp Hopen.
  rewrite (DispatcherProps.process_line_typed _ _ _ _ _ _ _ _ _ Ht). simpl.
  rewrite (DispatcherProps.handle_record_obj _ _ _ _ _ _ _ _ Hs), Hsch, Hval, Hrec, Hok.
  rewrite DispatcherProps.persist_record_obj. cbv zeta. rewrite Hemp.
  set (path := default (s +:+ ".csv") (filename w)) in *.
  set (w1 := match filename w with None => set_filename path w | Some _ => w end).
  assert (files w1 = files w) as Hfs by (subst w1; by destruct (filename w)).
  assert (choose_header s path true (flatten record) w1
          = (set_header s (dict_keys (flatten record)) w1, Done tt)) as ->.
  { unfold Dispatcher.choose_header, bind, gets, modify. by destruct (headers w1 !! s). }
  cbn [files set_header]. rewrite Hfs, (opened_or_created _ _ _ _ Hopen).
  eexists. split; [done|]. cbn -[flatten header_row dict_to_list].
  rewrite lookup_insert_eq. split; [done|].
  unfold Dispatcher.written_text. cbn -[flatten header_row dict_to_list].
  rewrite header_row_names, dict_to_list_own_keys, Hfs.
  - f_equal. unfold file_is_empty in Hemp.
    destruct (files w !! path) as [content|]; [|done].
    by apply String.eqb_eq in Hemp as ->.
  - rewrite FlattenProps.flatten_unfold. apply FlattenProps.dict_of_items_keys_nodup.
Qed.

(** X15.  A validated [RECORD] of a stream that already has a header in
    the run, written to a file that is not empty, replaces the header of
    the stream by the field names of its own flattened record and is
    written against them: the row is the values of the flattened record,
    in their order, and no header row is written. *)
Theorem record_of_seen_stream_uses_own_fields d s schema record w path h content :
  dict_get d "type" = Some (JStr "RECORD") ->
  dict_get d "stream" = Some (JStr s) ->
  dict_get d "record" = Some (JObj record) ->
  is_Some (schemas w !! s) ->
  validators w !! s = Some schema ->
  validate schema (JObj record) = true ->
  headers w !! s = Some h ->
  path = default (s +:+ ".csv") (filename w) ->
  files w !! path = Some content ->
  content ≠ "" ->
  exists w',
    process_line (Parsed (JObj d)) w = (w', Done tt)
    /\ headers w' !! s = Some (dict_keys (flatten record))
    /\ files w'
       = <[path := content +:+ writerow csv delimiter quotechar (map snd (flatten record))]>
           (files w).
Proof.
  intros Ht Hs Hrec [sch0 Hsch] Hval Hok Hh -> Hfile Hne.
  rewrite (DispatcherProps.process_line_typed _ _ _ _ _ _ _ _ _ Ht). simpl.
  rewrite (DispatcherProps.handle_record_obj _ _ _ _ _ _ _ _ Hs), Hsch, Hval, Hrec, Hok.
  rewrite DispatcherProps.persist_record_obj. cbv zeta.
  set (path := default (s +:+ ".csv") (filename w)) in *.
  assert (file_is_empty (files w) path = false) as ->.
  { unfold file_is_empty. rewrite Hfile. by destruct (String.eqb_spec content ""). }
  set (w1 := match filename w with None => set_filename path w | Some _ => w end).
  assert (files w1 = files w /\ headers w1 = headers w) as [Hfs Hhs]
    by (subst w1; by destruct (filename w)).
  rewrite (DispatcherProps.choose_header_seen _ _ _ _ _ _ _ _ h) by (by rewrite Hhs).
  cbn [files set_header]. rewrite Hfs, Hfile.
  eexists. split; [done|]. cbn -[flatten header_row dict_to_list].
  rewrite lookup_insert_eq. split; [done|].
  unfold Dispatcher.written_text. cbn -[flatten header_row dict_to_list].
  rewrite dict_to_list_own_keys, Hfs, Hfile; [done|].
  rewrite FlattenProps.flatten_unfold. apply FlattenProps.dict_of_items_keys_nodup.
Qed.

End Run.

(** *** Example runs *)

#[local] Abbreviation run :=
  (persist_lines permissive py_csv builds_from_objects creates_any_file).

(** The same in a directory without subdirectories. *)
#[local] Abbreviation run_flat :=
  (persist_lines permissive py_csv builds_from_objects no_subdirectories).

Lemma run_only_appends_witness :
  let content := "a" +:+ CRLF +:+ "1" +:+ CRLF in
  let fs : gmap string string := {["s.csv" := content]} in
  let lines := [schema_msg "s"; record_msg "s" [("a", JInt 2)]] in
  exists appended,
    files (fst (run None "," dquote lines fs)) !! "s.csv" = Some (content +:+ appended).
Proof.
  intros content fs lines.
  assert (run None "," dquote lines fs = (fst (run None "," dquote lines fs), Done JNull))
    as H by (vm_compute; reflexivity).
  assert (fs !! "s.csv" = Some content) as Hc by (vm_compute; reflexivity).
  exact (run_only_appends permissive py_csv "," dquote
            builds_from_objects creates_any_file None lines fs _ _ H "s.csv" content Hc).
Defined.

Lemma run_touches_one_file_witness :
  let fs : gmap string string := {["a.csv" := "keep"]} in
  let lines := [schema_msg "a"; schema_msg "b";
                record_msg "a" [("x", JInt 1)]; record_msg "b" [("y", JInt 2)]] in
  let w := fst (run (Some "out.csv") "," dquote lines fs) in
  filename w = Some "out.csv" /\ files w !! "a.csv" = Some "keep".
Proof.
  intros fs lines w.
  assert (run (Some "out.csv") "," dquote lines fs = (w, Done JNull))
    as H by (vm_compute; reflexivity).
  destruct (run_touches_one_file permissive py_csv "," dquote
            builds_from_objects creates_any_file _ lines fs w _ H) as [Hf Hother].
  split; [exact (Hf "out.csv" eq_refl)|].
  rewrite (Hother "a.csv"); [vm_compute; reflexivity|].
  rewrite (Hf "out.csv" eq_refl). discriminate.
Defined.


Lemma run_without_record_writes_nothing_witness :
  let fs : gmap string string := {["s.csv" := "a"]} in
  let lines := [schema_msg "s"; state_msg (JInt 1); schema_msg "t"] in
  files (fst (run None "," dquote lines fs)) = fs.
Proof.
  intros fs lines.
  assert (run None "," dquote lines fs = (fst (run None "," dquote lines fs), Done (JInt 1)))
    as H by (vm_compute; reflexivity).
  refine (run_without_record_writes_nothing permissive py_csv "," dquote
            builds_from_objects creates_any_file None lines fs _ _ H _).
  by repeat constructor.
Defined.

Lemma last_schema_message_is_registered_witness :
  let later := JObj [("type", JStr "object")] in
  let lines := [schema_msg "s"; schema_msg "t"; schema_msg_with "s" later] in
  let w := fst (run None "," dquote lines ∅) in
  (schemas w !! "s" = Some later /\ validators w !! "s" = Some later)
  /\ (schemas w !! "u" = None /\ validators w !! "u" = None).
Proof.
  intros later lines w.
  assert (run None "," dquote lines ∅ = (w, Done JNull)) as H by (vm_compute; reflexivity).
  split.
  - exact (last_schema_message_is_registered permissive py_csv "," dquote
            builds_from_objects creates_any_file None lines ∅ w
             JNull "s" H).
  - exact (last_schema_message_is_registered permissive py_csv "," dquote
            builds_from_objects creates_any_file None lines ∅ w
             JNull "u" H).
Defined.

(** The same with the validator that accepts objects only. *)
#[local] Abbreviation run_checked :=
  (persist_lines object_validator py_csv builds_from_objects creates_any_file).

Lemma invalid_record_fails_and_writes_nothing_witness :
  let schema := JObj [("type", JStr "object")] in
  let pre := [schema_msg_with "s" schema] in
  let d := [("type", JStr "RECORD"); ("stream", JStr "s"); ("record", JArr [JInt 1])] in
  let w := fst (run_checked None "," dquote pre ∅) in
  run_checked None "," dquote
    (pre ++ [Parsed (JObj d); state_msg (JInt 1)]) ∅
  = (w, Raise ValidationError)
  /\ files w = ∅ /\ filename w = None.
Proof.
  intros schema pre d w.
  assert (run_checked None "," dquote pre ∅ = (w, Done JNull))
    as H by (vm_compute; reflexivity).
  split; [|by vm_compute].
  exact (invalid_record_fails_and_writes_nothing object_validator py_csv "," dquote
            builds_from_objects creates_any_file None
           pre d [state_msg (JInt 1)] ∅ w JNull "s" schema (JArr [JInt 1])
           H eq_refl eq_refl eq_refl eq_refl eq_refl).
Defined.

Lemma unknown_message_type_fails_witness :
  let pre := [schema_msg "s"] in
  let d := [("type", JStr "record"); ("stream", JStr "s"); ("record", JObj [])] in
  let w := fst (run None "," dquote pre ∅) in
  run None "," dquote (pre ++ [Parsed (JObj d)]) ∅
  = (w, Raise (ProtocolError (UnknownMessageType (JStr "record")))).
Proof.
  intros pre d w.
  assert (run None "," dquote pre ∅ = (w, Done JNull)) as H by (vm_compute; reflexivity).
  refine (unknown_message_type_fails permissive py_csv "," dquote
            builds_from_objects creates_any_file None pre d [] ∅ w JNull
            (JStr "record") H eq_refl _ _ _); discriminate.
Defined.

(** In a directory without subdirectories the first record of the stream
    [a/b] cannot be written: [open] fails and [a/b.csv] is not created. *)
Example record_of_stream_with_slash_fails :
  let lines := [schema_msg "a/b"; record_msg "a/b" [("x", JInt 1)]] in
  let w := fst (run_flat None "," dquote lines ∅) in
  snd (run_flat None "," dquote lines ∅) = Raise OSError
  /\ filename w = Some "a/b.csv"
  /\ files w = ∅.
Proof. vm_compute. done. Qed.

Lemma record_to_new_file_writes_header_and_row_witness :
  let w := fst (run_flat None "," dquote [schema_msg "s"] ∅) in
  let record := [("a", JObj [("b", JInt 1)]); ("c", JStr "x")] in
  exists w',
    process_line permissive py_csv "," dquote builds_from_objects no_subdirectories
      (record_msg "s" record) w = (w', Done tt)
    /\ headers w' !! "s" = Some ["a__b"; "c"]
    /\ files w' = <[ "s.csv" := "a__b,c" +:+ CRLF +:+ "1,x" +:+ CRLF ]> (files w).
Proof.
  intros w record.
  refine (record_to_new_file_writes_header_and_row permissive py_csv "," dquote
            builds_from_objects no_subdirectories
            [("type", JStr "RECORD"); ("stream", JStr "s"); ("record", JObj record)]
            "s" (JObj []) record w "s.csv" eq_refl eq_refl eq_refl _ _ eq_refl _ _ _).
  - exists (JObj []). vm_compute. reflexivity.
  - vm_compute. reflexivity.
  - vm_compute. reflexivity.
  - vm_compute. reflexivity.
  - intros _. vm_compute. reflexivity.
Defined.

Lemma record_of_seen_stream_uses_own_fields_witness :
  let w := fst (run None "," dquote [schema_msg "s"; record_msg "s" [("a", JInt 1)]] ∅) in
  let record := [("b", JInt 2); ("c", JInt 3)] in
  exists w',
    process_line permissive py_csv "," dquote
              builds_from_objects creates_any_file (record_msg "s" record) w = (w', Done tt)
    /\ headers w' !! "s" = Some ["b"; "c"]
    /\ files w' = <[ "s.csv" := ("a" +:+ CRLF +:+ "1" +:+ CRLF) +:+ "2,3" +:+ CRLF ]> (files w).
Proof.
  intros w record.
  refine (record_of_seen_stream_uses_own_fields permissive py_csv "," dquote
            builds_from_objects creates_any_file
            [("type", JStr "RECORD"); ("stream", JStr "s"); ("record", JObj record)]
            "s" (JObj []) record w "s.csv" ["a"] ("a" +:+ CRLF +:+ "1" +:+ CRLF)
            eq_refl eq_refl eq_refl _ _ eq_refl _ _ _ _).
  - exists (JObj []). vm_compute. reflexivity.
  - vm_compute. reflexivity.
  - vm_compute. reflexivity.
  - vm_compute. reflexivity.
  - vm_compute. reflexivity.
  - discriminate.
Defined.

End DispatcherFiles.

(** ** The state line and the entry point *)

Module MainProps.
Import Py Flatten Csv Dispatcher Main.

(** *** Printable text *)

Lemma list_ascii_app (a b : string) :
  list_ascii_of_string (a +:+ b) = list_ascii_of_string a ++ list_ascii_of_string b.
Proof.
  induction a as [|c a IH]; [done|].
  change (c :: list_ascii_of_string (a +:+ b)
          = c :: (list_ascii_of_string a ++ list_ascii_of_string b)).
  by f_equal.
Qed.

Lemma printable_app a b : printable (a +:+ b) = printable a && printable b.
Proof. unfold printable. by rewrite list_ascii_app, forallb_app. Qed.

Lemma printable_concat sep (l : list string) :
  printable sep = true ->
  Forall (fun s => printable s = true) l ->
  printable (String.concat sep l) = true.
Proof.
  intros Hsep. induction 1 as [|x l Hx Hl IH]; [done|].
  destruct l as [|y l]; [done|].
  change (printable (x +:+ sep +:+ String.concat sep (y :: l)) = true).
  by rewrite !printable_app, Hx, Hsep, IH.
Qed.

Lemma printable_escape_char c : printable (escape_char c) = true.
Proof. destruct c as [[] [] [] [] [] [] [] []]; vm_compute; reflexivity. Qed.

Lemma printable_encode s : printable (encode_basestring_ascii s) = true.
Proof.
  unfold encode_basestring_ascii.
  change (String dquote ?x +:+ ?y) with (String dquote (x +:+ y)).
  change (String dquote ?x) with (String dquote "" +:+ x).
  rewrite !printable_app. rewrite printable_concat; [done|done|].
  apply Forall_forall. intros x (c & -> & _)%list_elem_of_fmap.
  apply printable_escape_char.
Qed.

Lemma printable_pretty_N_go (x : N) (s : string) :
  printable s = true -> printable (pretty_N_go x s) = true.
Proof.
  revert s. induction x as [x IH] using (well_founded_ind N.lt_wf_0); intros s Hs.
  destruct (decide (x = 0)%N) as [->|Hx].
  - by rewrite pretty_N_go_0.
  - rewrite pretty_N_go_step by lia. apply IH.
    + apply N.div_lt; lia.
    + change (printable (String (pretty_N_char (x mod 10)) "" +:+ s) = true).
      rewrite printable_app, Hs, andb_true_r.
      unfold pretty_N_char. by repeat case_match.
Qed.

Lemma printable_pretty_Z (n : Z) : printable (pretty n) = true.
Proof.
  assert (forall p : positive, printable (pretty p) = true) as Hpos.
  { intros p. unfold pretty, pretty_positive, pretty, pretty_N.
    case_decide; [done|]. by apply printable_pretty_N_go. }
  destruct n as [|p|p]; [done|apply Hpos|].
  change (printable ("-" +:+ pretty p) = true). by rewrite printable_app, Hpos.
Qed.

Lemma printable_dumps_float r : printable r = true -> printable (dumps_float r) = true.
Proof. intros Hr. unfold dumps_float. by repeat case_match. Qed.

Lemma printable_json_dumps v :
  printable_floats v = true -> printable (json_dumps v) = true.
Proof.
  induction v as [|[]| | | |items IH|members IH] using json_ind; intros Hv; try done.
  - apply printable_pretty_Z.
  - by apply printable_dumps_float.
  - apply printable_encode.
  - cbn [json_dumps]. rewrite !printable_app. simpl in Hv.
    rewrite printable_concat; [done|done|].
    apply Forall_forall. intros y (x & -> & Hx)%list_elem_of_fmap.
    rewrite Forall_forall in IH. apply IH; [done|].
    rewrite forallb_forall in Hv. by apply Hv, list_elem_of_In.
  - cbn [json_dumps]. rewrite !printable_app. simpl in Hv.
    rewrite printable_concat; [done|done|].
    apply Forall_forall. intros y ([k x] & -> & Hx)%list_elem_of_fmap.
    rewrite Forall_forall in IH. rewrite forallb_forall in Hv.
    rewrite !printable_app, printable_encode. cbn [fst snd andb].
    apply (IH _ Hx). by apply (Hv (k, x)), list_elem_of_In.
Qed.

(** X12.  [emit_state] writes nothing for [None] and otherwise exactly
    one line: the JSON text of the state, all of it printable ASCII (no
    line break can occur inside it), followed by a newline. *)
Theorem emit_state_writes_one_line (state : json) :
  printable_floats state = true ->
  (state = JNull /\ emit_state state = "")
  \/ (state ≠ JNull
      /\ emit_state state = json_dumps state +:+ String LF ""
      /\ printable (json_dumps state) = true).
Proof.
  intros H. pose proof (printable_json_dumps _ H) as Hp.
  destruct state; [by left|right; by split_and!..].
Qed.

Lemma emit_state_writes_one_line_witness :
  let state := JObj [("bookmarks", JObj [("users", JStr (String LF "x"))]); ("n", JFloat "1.5")] in
  printable_floats state = true
  /\ emit_state state
     = "{" +:+ String dquote "bookmarks" +:+ String dquote ": {" +:+ String dquote "users"
       +:+ String dquote ": " +:+ String dquote "\nx" +:+ String dquote "}, "
       +:+ String dquote "n" +:+ String dquote ": 1.5}" +:+ String LF "".
Proof.
  intros state.
  assert (printable_floats state = true) as H by (vm_compute; reflexivity).
  split; [exact H|].
  destruct (emit_state_writes_one_line state H) as [[Hnull _]|(_ & -> & _)];
    [discriminate Hnull|].
  vm_compute. reflexivity.
Defined.

Section Entry.

Variable validate : json -> json -> bool.
Variable csv : csv_module.
Variable construct : json -> option exn.
Variable create_error : string -> option exn.

#[local] Abbreviation main := (main validate csv construct create_error).

(** X13.  [main] reads two options of the configuration, [delimiter] and
    [quotechar], and no other: configurations that agree on these two
    give the same run.  The [filename] option in particular has no effect
    (line 125 drops the value it reads); only [--output] names the file. *)
Theorem main_reads_only_delimiter_and_quotechar (d1 d2 : dict json) output stdin fs :
  dict_get d1 "delimiter" = dict_get d2 "delimiter" ->
  dict_get d1 "quotechar" = dict_get d2 "quotechar" ->
  main (Config (JObj d1)) output stdin fs
  = main (Config (JObj d2)) output stdin fs.
Proof.
  intros Hd Hq. unfold Main.main, load_config, choose_filename, config_get, dict_get_default.
  rewrite Hd, Hq. by destruct output as [o|]; [destruct (truthy o)|].
Qed.

(** X14.  When [main] ends normally, what it has written to the standard
    output is [emit_state] of the value of the most recent [STATE] message
    that no [RECORD] message follows, and nothing when every [STATE]
    message is followed by a [RECORD] message. *)
Theorem main_emits_last_unconsumed_state config output stdin fs fs' out :
  main config output stdin fs = (fs', Done out) ->
  (forall pre l post v,
      stdin = pre ++ l :: post ->
      is_state l = true -> message_field "value" l = Some v ->
      Forall (fun l' => is_record l' = false /\ is_state l' = false) post ->
      out = emit_state v)
  /\ ((forall pre l post,
          stdin = pre ++ l :: post -> is_state l = true ->
          Exists (fun l' => is_record l' = true) post) ->
      out = "").
Proof.
  unfold Main.main. intros H.
  repeat (case_match; simplify_eq/=).
  match goal with
  | H : persist_lines _ _ _ _ _ _ _ _ _ = _ |- _ =>
      apply DispatcherProps.persist_lines_done in H as [Hrun ->]
  end.
  rewrite (DispatcherProps.for_lines_checkpoint _ _ _ _ _ _ _ _ _ Hrun). simpl. split.
  - intros pre l post v -> Hl Hv Hpost.
    by rewrite (DispatcherProps.checkpoint_after_last_state pre l post v JNull).
  - intros Hall. by rewrite DispatcherProps.checkpoint_after_consumed.
Qed.

End Entry.

(** [main] with the libraries and the directory of the example runs. *)
#[local] Abbreviation main_run :=
  (main permissive py_csv builds_from_objects creates_any_file).

Lemma main_reads_only_delimiter_and_quotechar_witness :
  let with_filename := [("filename", JStr "out.csv"); ("delimiter", JStr ";")] in
  let without := [("delimiter", JStr ";")] in
  let stdin := [schema_msg "s"; record_msg "s" [("a", JInt 1); ("b", JInt 2)]] in
  main_run (Config (JObj with_filename)) None stdin ∅
  = main_run (Config (JObj without)) None stdin ∅
  /\ fst (main_run (Config (JObj with_filename)) None stdin ∅) !! "out.csv"
     = None
  /\ fst (main_run (Config (JObj with_filename)) None stdin ∅) !! "s.csv"
     = Some ("a;b" +:+ CRLF +:+ "1;2" +:+ CRLF).
Proof.
  intros with_filename without stdin. split.
  - exact (main_reads_only_delimiter_and_quotechar permissive py_csv builds_from_objects
             creates_any_file with_filename without None stdin ∅ eq_refl eq_refl).
  - vm_compute. done.
Defined.

Lemma main_emits_last_unconsumed_state_witness :
  let stdin := [schema_msg "s"; record_msg "s" [("a", JInt 1)]; state_msg (JInt 5);
                schema_msg "t"] in
  exists fs' out,
    main_run NoConfig None stdin ∅ = (fs', Done out)
    /\ out = "5" +:+ String LF "".
Proof.
  intros stdin.
  exists (fst (main_run NoConfig None stdin ∅)), ("5" +:+ String LF "").
  assert (main_run NoConfig None stdin ∅
          = (fst (main_run NoConfig None stdin ∅), Done ("5" +:+ String LF "")))
    as H by (vm_compute; reflexivity).
  split; [exact H|].
  refine (proj1 (main_emits_last_unconsumed_state _ _ _ _ _ _ _ _ _ _ H)
            [schema_msg "s"; record_msg "s" [("a", JInt 1)]] (state_msg (JInt 5))
            [schema_msg "t"] (JInt 5) eq_refl eq_refl eq_refl _).
  by repeat constructor.
Defined.

End MainProps.
